(** * check-it: a task-tracking backend over one SQLite table

    A shallow embedding of the Python sources

      - [src/backend/models.py]  the [Task] record,
      - [src/db.py], [src/backend/db.py]  the two [init_db] variants,
      - [src/core.py]  the domain functions,
      - [src/backend/main.py]  the HTTP handlers,

    together with a model of the part of [sqlite3] those sources drive: one
    table [tasks] with an [AUTOINCREMENT] key and three [NOT NULL] columns.

    How the Python is read:

      - a Python [int] is a [Z]; SQLite's INTEGER is 64 bits wide, and the
        driver raises [OverflowError] when it is asked to bind a wider one;
      - text is a [string]: the UTF-8 bytes the driver hands to SQLite and
        gets back.  The functions of [core.py] and the request models are
        read on text; a Python [str] as a caller can pass it, lone
        surrogates included, is a [Python.str], and [create_task_str] and
        [update_task_str] are the same functions on such arguments, where
        the driver may fail to bind them; [None] is the [None] of an
        [option];
      - a function that opens a connection, runs statements, commits and
        closes is a function on the committed database that returns a value
        or raises; a statement that raises changes nothing;
      - connections never fail to open: a database file is always at hand,
        with or without the table in it; disk space and SQLite's limit on
        the length of a value are not modelled. *)

From Stdlib Require Import ZArith List String Ascii Bool Lia Sorted.
Import ListNotations.
Open Scope Z_scope.

(** ** Exceptions and the monad *)

(** The exceptions that can travel through the code: those the [sqlite3]
    driver raises, and the one raised by the handlers of [main.py]. *)
Inductive Exn : Type :=
| OperationalError (msg : string)
| IntegrityError (msg : string)
| OverflowError (msg : string)
| UnicodeEncodeError (msg : string)
| HTTPException (status_code : Z) (detail : string).

Inductive Result (A : Type) : Type :=
| Return (a : A)
| Raise (e : Exn).
Arguments Return {A} a.
Arguments Raise {A} e.

(** ** Python's [str] *)

Module Python.

(** A [str] is a sequence of code points, each from 0 to 0x10FFFF; the
    surrogates 0xD800 to 0xDFFF are code points like the others. *)
Definition str : Type := list Z.

Definition is_surrogate (c : Z) : bool := (0xD800 <=? c) && (c <=? 0xDFFF).

Definition byte (z : Z) : ascii := ascii_of_N (Z.to_N z).

(** The UTF-8 bytes of one code point; a surrogate has none. *)
Definition encode_char (c : Z) : option string :=
  if c <? 0 then None
  else if c <? 0x80 then Some (String (byte c) EmptyString)
  else if c <? 0x800 then
    Some (String (byte (0xC0 + c / 0x40))
         (String (byte (0x80 + c mod 0x40)) EmptyString))
  else if is_surrogate c then None
  else if c <? 0x10000 then
    Some (String (byte (0xE0 + c / 0x1000))
         (String (byte (0x80 + (c / 0x40) mod 0x40))
         (String (byte (0x80 + c mod 0x40)) EmptyString)))
  else if c <? 0x110000 then
    Some (String (byte (0xF0 + c / 0x40000))
         (String (byte (0x80 + (c / 0x1000) mod 0x40))
         (String (byte (0x80 + (c / 0x40) mod 0x40))
         (String (byte (0x80 + c mod 0x40)) EmptyString))))
  else None.

(** [s.encode('utf-8')], [None] where Python raises [UnicodeEncodeError]. *)
Fixpoint encode (s : str) : option string :=
  match s with
  | [] => Some EmptyString
  | c :: s' =>
      match encode_char c, encode s' with
      | Some u, Some v => Some (u ++ v)%string
      | _, _ => None
      end
  end.

End Python.

(** ** The SQLite side *)

Module Sqlite3.

(** SQLite's INTEGER is a signed 64-bit value; a Python [int] is not. *)
Definition INT64_MAX : Z := 9223372036854775807.
Definition INT64_MIN : Z := -9223372036854775808.

(** One row of [tasks].  [status] is declared BOOLEAN, which SQLite stores
    as an integer: Python's [False]/[True] are bound as 0/1. *)
Record Row : Type := mkRow {
  row_id : Z;
  row_name : string;
  row_desc : string;
  row_status : Z
}.

(** The table: its rows in rowid order, and the counter that
    [AUTOINCREMENT] keeps in [sqlite_sequence] (the largest rowid the table
    has ever held). *)
Record Table : Type := mkTable {
  rows : list Row;
  seq : Z
}.

(** The database file: either the table [tasks] exists or it does not. *)
Definition Database : Type := option Table.

Definition M (A : Type) : Type := Database -> Result A * Database.

Definition ret {A} (a : A) : M A := fun db => (Return a, db).

Definition raise {A} (e : Exn) : M A := fun db => (Raise e, db).

Definition bind {A B} (m : M A) (k : A -> M B) : M B :=
  fun db =>
    match m db with
    | (Return a, db') => k a db'
    | (Raise e, db') => (Raise e, db')
    end.

Definition no_such_table : Exn := OperationalError "no such table: tasks".
Definition database_full : Exn := OperationalError "database or disk is full".
Definition not_null_failed : Exn := IntegrityError "NOT NULL constraint failed".
Definition int_too_large : Exn :=
  OverflowError "Python int too large to convert to SQLite INTEGER".
Definition cannot_encode : Exn :=
  UnicodeEncodeError "'utf-8' codec can't encode character: surrogates not allowed".

(** Binding a Python [int] as a statement parameter. *)
Definition in_int64 (z : Z) : bool := (INT64_MIN <=? z) && (z <=? INT64_MAX).

(** The largest rowid in the table, 0 for an empty one.  The rowids this
    program stores are positive, and on those this is SQLite's maximum. *)
Definition max_rowid (rs : list Row) : Z :=
  fold_right (fun r m => Z.max (row_id r) m) 0 rs.

(** The largest rowid that has ever been in the table. *)
Definition top (t : Table) : Z := Z.max (seq t) (max_rowid (rows t)).

(** [CREATE TABLE IF NOT EXISTS tasks (...)] *)
Definition create_table_if_not_exists : M unit :=
  fun db =>
    match db with
    | None => (Return tt, Some (mkTable [] 0))
    | Some t => (Return tt, Some t)
    end.

(** What [cursor.execute] does with a [str] parameter before the statement
    runs: the statement is prepared, which needs the table, and then the
    [str] is encoded as UTF-8, which raises on a lone surrogate. *)
Definition bind_text (s : Python.str) : M string :=
  fun db =>
    match db with
    | None => (Raise no_such_table, db)
    | Some _ =>
        match Python.encode s with
        | Some u => (Return u, db)
        | None => (Raise cannot_encode, db)
        end
    end.

(** [INSERT INTO tasks (name, desc, status) VALUES (?, ?, ?)], giving
    [cursor.lastrowid], on parameters that are bound: text, integers, and
    [None] for SQL NULL.  The new rowid is
    one more than the largest the table ever held; when that was the
    largest 64-bit integer the statement fails. *)
Definition insert (name desc : option string) (status : option Z) : M Z :=
  fun db =>
    match db with
    | None => (Raise no_such_table, db)
    | Some t =>
        if INT64_MAX <=? top t then (Raise database_full, db)
        else
          match name, desc, status with
          | Some n, Some d, Some s =>
              let i := top t + 1 in
              (Return i, Some (mkTable (rows t ++ [mkRow i n d s]) i))
          | _, _, _ => (Raise not_null_failed, db)
          end
    end.

(** [cursor.executemany] of the same INSERT: one implicit transaction, so
    a failure part-way leaves the committed database as it was. *)
Fixpoint insert_each (params : list (option string * option string * option Z))
  : M unit :=
  match params with
  | [] => ret tt
  | (n, d, s) :: params' => bind (insert n d s) (fun _ => insert_each params')
  end.

Definition executemany (params : list (option string * option string * option Z))
  : M unit :=
  fun db =>
    match insert_each params db with
    | (Return u, db') => (Return u, db')
    | (Raise e, _) => (Raise e, db)
    end.

(** [SELECT COUNT( * ) FROM tasks] then [fetchone()[0]] *)
Definition select_count : M Z :=
  fun db =>
    match db with
    | None => (Raise no_such_table, db)
    | Some t => (Return (Z.of_nat (List.length (rows t))), db)
    end.

(** [SELECT * FROM tasks] then [fetchall()] *)
Definition select_all : M (list Row) :=
  fun db =>
    match db with
    | None => (Raise no_such_table, db)
    | Some t => (Return (rows t), db)
    end.

(** [SELECT * FROM tasks WHERE id = ?] then [fetchone()] *)
Definition select_by_id (i : Z) : M (option Row) :=
  fun db =>
    match db with
    | None => (Raise no_such_table, db)
    | Some t =>
        if in_int64 i
        then (Return (find (fun r => row_id r =? i) (rows t)), db)
        else (Raise int_too_large, db)
    end.

(** [UPDATE tasks SET name = ?, desc = ?, status = ? WHERE id = ?], on text
    parameters that are bound. *)
Definition update (name desc : option string) (status : option Z) (i : Z)
  : M unit :=
  fun db =>
    match db with
    | None => (Raise no_such_table, db)
    | Some t =>
        if in_int64 i
        then
          match name, desc, status with
          | Some n, Some d, Some s =>
              (Return tt,
               Some (mkTable
                       (map (fun r => if row_id r =? i
                                      then mkRow (row_id r) n d s else r)
                            (rows t))
                       (seq t)))
          | _, _, _ =>
              if existsb (fun r => row_id r =? i) (rows t)
              then (Raise not_null_failed, db)
              else (Return tt, db)
          end
        else (Raise int_too_large, db)
    end.

(** [DELETE FROM tasks WHERE id = ?], giving [cursor.rowcount] *)
Definition delete (i : Z) : M Z :=
  fun db =>
    match db with
    | None => (Raise no_such_table, db)
    | Some t =>
        if in_int64 i
        then
          (Return (Z.of_nat (List.length (filter (fun r => row_id r =? i) (rows t)))),
           Some (mkTable (filter (fun r => negb (row_id r =? i)) (rows t))
                         (seq t)))
        else (Raise int_too_large, db)
    end.

End Sqlite3.

Import Sqlite3.

Notation "x <- m ;; k" := (bind m (fun x => k))
  (at level 61, m at next level, right associativity).
Notation "m ;;; k" := (bind m (fun _ => k))
  (at level 61, right associativity).

(** ** [models.py] *)

Module Models.

Record Task : Type := mkTask {
  id : Z;
  name : string;
  desc : string;
  status : bool
}.

End Models.

Import Models.

(** ** [db.py] at the top of the repository *)

Module Db.

(** [init_db]: create the table if it is absent, commit, close. *)
Definition init_db : M unit :=
  create_table_if_not_exists.

End Db.

(** ** [backend/db.py], the module [main.py] imports as [db] *)

Module BackendDb.

Definition default_tasks : list (string * string * bool) :=
  [ ("TASK-1"%string, "First task to complete"%string, false);
    ("TASK-2"%string, "Second task to complete"%string, false);
    ("TASK-3"%string, "Third task to complete"%string, false) ].

(** The parameters of one INSERT, as [sqlite3] binds a Python tuple. *)
Definition as_params (p : string * string * bool)
  : option string * option string * option Z :=
  let '(n, d, s) := p in (Some n, Some d, Some (Z.b2z s)).

(** [init_db]: create the table if it is absent; count the rows; when there
    are none, insert the default tasks; commit, close. *)
Definition init_db : M unit :=
  create_table_if_not_exists ;;;
  task_count <- select_count ;;
  (if task_count =? 0
   then executemany (map as_params default_tasks)
   else ret tt).

End BackendDb.

(** ** [core.py] *)

Module Core.

(** Python's [bool(x)] on an integer column value. *)
Definition py_bool (z : Z) : bool := negb (z =? 0).

(** [Task(id=row['id'], name=row['name'], desc=row['desc'],
         status=bool(row['status']))] *)
Definition task_of_row (row : Row) : Task :=
  mkTask (row_id row) (row_name row) (row_desc row) (py_bool (row_status row)).

Definition create_task (name desc : string) (status : bool) : M Task :=
  task_id <- insert (Some name) (Some desc) (Some (Z.b2z status)) ;;
  ret (mkTask task_id name desc status).

Definition get_all_tasks : M (list Task) :=
  rows <- select_all ;;
  ret (map task_of_row rows).

Definition get_task_by_id (task_id : Z) : M (option Task) :=
  row <- select_by_id task_id ;;
  match row with
  | Some r => ret (Some (task_of_row r))
  | None => ret None
  end.

(** The arguments default to [None]; a caller that leaves one out and a
    caller that passes [None] make the same call. *)
Definition update_task (task_id : Z) (name desc : option string)
  (status : option bool) : M (option Task) :=
  task <- get_task_by_id task_id ;;
  match task with
  | None => ret None
  | Some task =>
      let updated_name :=
        match name with Some v => v | None => Models.name task end in
      let updated_desc :=
        match desc with Some v => v | None => Models.desc task end in
      let updated_status :=
        match status with Some v => v | None => Models.status task end in
      update (Some updated_name) (Some updated_desc)
             (Some (Z.b2z updated_status)) task_id ;;;
      ret (Some (mkTask task_id updated_name updated_desc updated_status))
  end.

Definition delete_task (task_id : Z) : M bool :=
  rowcount <- delete task_id ;;
  let deleted := 0 <? rowcount in
  ret deleted.

(** [create_task] on any [str]: the driver binds [name], then [desc], and
    the INSERT runs on the text they encode to. *)
Definition create_task_str (name desc : Python.str) (status : bool) : M Task :=
  n <- bind_text name ;;
  d <- bind_text desc ;;
  create_task n d status.

Definition bind_optional (s : option Python.str) : M (option string) :=
  match s with
  | None => ret None
  | Some s => u <- bind_text s ;; ret (Some u)
  end.

(** [update_task] on any [str]: nothing is bound when the task is absent;
    otherwise the driver binds the supplied [name] and [desc] (the stored
    ones are text already), and the UPDATE runs on the text. *)
Definition update_task_str (task_id : Z) (name desc : option Python.str)
  (status : option bool) : M (option Task) :=
  task <- get_task_by_id task_id ;;
  match task with
  | None => ret None
  | Some _ =>
      n <- bind_optional name ;;
      d <- bind_optional desc ;;
      update_task task_id n d status
  end.

End Core.

(** ** What FastAPI does around a handler *)

Module FastAPI.

(** The JSON (or text) a response carries. *)
Inductive Body : Type :=
| JTask (t : Task)
| JTasks (l : list Task)
| JMessage (message : string)
| JDetail (detail : string)
| PlainText (text : string).

Record Response : Type := mkResponse {
  status_code : Z;
  body : Body
}.

(** A value returned by the handler is the body of a 200; an
    [HTTPException] becomes its status code with [{"detail": ...}]; any
    other exception is a 500. *)
Definition respond (r : Result Body) : Response :=
  match r with
  | Return b => mkResponse 200 b
  | Raise (HTTPException code detail) => mkResponse code (JDetail detail)
  | Raise _ => mkResponse 500 (PlainText "Internal Server Error")
  end.

End FastAPI.

Import FastAPI.

(** ** [backend/main.py] *)

Module Main.

(** The request models, after validation: a missing [status] of a
    [TaskCreate] has become [False], a missing field of a [TaskUpdate] has
    become [None]. *)
Record TaskCreate : Type := mkTaskCreate {
  create_name : string;
  create_desc : string;
  create_status : bool
}.

Record TaskUpdate : Type := mkTaskUpdate {
  update_name : option string;
  update_desc : option string;
  update_status : option bool
}.

Definition startup : M unit := BackendDb.init_db.

Definition read_root : M string := ret "Task Manager API"%string.

Definition create_new_task (task : TaskCreate) : M Task :=
  Core.create_task (create_name task) (create_desc task) (create_status task).

Definition get_tasks : M (list Task) := Core.get_all_tasks.

Definition not_found : Exn := HTTPException 404 "Task not found".

Definition get_task (task_id : Z) : M Task :=
  task <- Core.get_task_by_id task_id ;;
  match task with
  | None => raise not_found
  | Some t => ret t
  end.

Definition update_existing_task (task_id : Z) (task_update : TaskUpdate)
  : M Task :=
  task <- Core.update_task task_id (update_name task_update)
            (update_desc task_update) (update_status task_update) ;;
  match task with
  | None => raise not_found
  | Some t => ret t
  end.

Definition delete_existing_task (task_id : Z) : M string :=
  deleted <- Core.delete_task task_id ;;
  if negb deleted
  then raise not_found
  else ret "Task deleted successfully"%string.

(** The routes. *)
Inductive Request : Type :=
| GET_root
| POST_tasks (task : TaskCreate)
| GET_tasks
| GET_task (task_id : Z)
| PUT_task (task_id : Z) (task_update : TaskUpdate)
| DELETE_task (task_id : Z).

Definition fmap {A B} (f : A -> B) (m : M A) : M B :=
  a <- m ;; ret (f a).

Definition route (req : Request) : M Body :=
  match req with
  | GET_root => fmap JMessage read_root
  | POST_tasks task => fmap JTask (create_new_task task)
  | GET_tasks => fmap JTasks get_tasks
  | GET_task task_id => fmap JTask (get_task task_id)
  | PUT_task task_id task_update =>
      fmap JTask (update_existing_task task_id task_update)
  | DELETE_task task_id => fmap JMessage (delete_existing_task task_id)
  end.

(** One request against the database. *)
Definition app (req : Request) (db : Database) : Response * Database :=
  let (r, db') := route req db in (respond r, db').

(** A client session: the requests in order, each with its response. *)
Fixpoint serve (reqs : list Request) (db : Database)
  : list (Request * Response) * Database :=
  match reqs with
  | [] => ([], db)
  | req :: reqs' =>
      let (resp, db1) := app req db in
      let (trace, db2) := serve reqs' db1 in
      ((req, resp) :: trace, db2)
  end.

End Main.

Import Main.

(** ** The shape of a table the program can produce

    The rowids are positive and strictly increasing along the table (it is
    scanned in rowid order, and [id] is its primary key), none is above the
    [AUTOINCREMENT] counter, the counter is a 64-bit integer, and every
    [status] is the integer of a Python [bool]. *)

Fixpoint rows_ok (lo hi : Z) (rs : list Row) : bool :=
  match rs with
  | [] => true
  | r :: rs' =>
      (lo <? row_id r) && (row_id r <=? hi)
      && ((row_status r =? 0) || (row_status r =? 1))
      && rows_ok (row_id r) hi rs'
  end.

(** The [status] of a row is the integer of a Python [bool]. *)
Definition status01 (r : Row) : Prop := row_status r = 0 \/ row_status r = 1.

Definition wf_table (t : Table) : bool :=
  (0 <=? seq t) && (seq t <=? INT64_MAX) && rows_ok 0 (seq t) (rows t).

Definition wf (db : Database) : bool :=
  match db with
  | None => true
  | Some t => wf_table t
  end.

(** Whether a row with this id is stored. *)
Definition stored (i : Z) (db : Database) : bool :=
  match db with
  | None => false
  | Some t => existsb (fun r => row_id r =? i) (rows t)
  end.

(** ** What a client sees in a session *)

Definition is_ok (resp : Response) : bool := status_code resp =? 200.

(** The ids handed out by the successful [POST /tasks], in order. *)
Definition created_id (ev : Request * Response) : option Z :=
  match ev with
  | (POST_tasks _, mkResponse code (JTask t)) =>
      if code =? 200 then Some (id t) else None
  | _ => None
  end.

Fixpoint created_ids (trace : list (Request * Response)) : list Z :=
  match trace with
  | [] => []
  | ev :: trace' =>
      match created_id ev with
      | Some i => i :: created_ids trace'
      | None => created_ids trace'
      end
  end.

(** How many [POST /tasks] and how many [DELETE /tasks/{id}] succeeded. *)
Definition is_created (ev : Request * Response) : bool :=
  match ev with
  | (POST_tasks _, resp) => is_ok resp
  | _ => false
  end.

Definition is_deleted (ev : Request * Response) : bool :=
  match ev with
  | (DELETE_task _, resp) => is_ok resp
  | _ => false
  end.

Definition count_created (trace : list (Request * Response)) : Z :=
  Z.of_nat (List.length (filter is_created trace)).

Definition count_deleted (trace : list (Request * Response)) : Z :=
  Z.of_nat (List.length (filter is_deleted trace)).

(** The names a session sends in. *)
Definition supplied_name (req : Request) : option string :=
  match req with
  | POST_tasks task => Some (create_name task)
  | PUT_task _ task_update => update_name task_update
  | _ => None
  end.

Definition nonempty (s : string) : bool :=
  match s with
  | EmptyString => false
  | String _ _ => true
  end.

Definition names_supplied_nonempty (reqs : list Request) : bool :=
  forallb (fun req => match supplied_name req with
                      | Some s => nonempty s
                      | None => true
                      end) reqs.

Definition names_nonempty (db : Database) : bool :=
  match db with
  | None => true
  | Some t => forallb (fun r => nonempty (row_name r)) (rows t)
  end.

(** ** Vocabulary for the statements *)

(** The row [SELECT ... WHERE id = ?] finds. *)
Definition find_row (i : Z) (t : Table) : option Row :=
  find (fun r => row_id r =? i) (rows t).

(** [v if v is not None else current] *)
Definition merge {A} (supplied : option A) (current : A) : A :=
  match supplied with
  | Some v => v
  | None => current
  end.

(** What UPDATE does to one row. *)
Definition set_row (i : Z) (n d : string) (s : Z) (r : Row) : Row :=
  if row_id r =? i then mkRow (row_id r) n d s else r.

(** The same row under another name. *)
Definition rename_row (i : Z) (x : string) (r : Row) : Row :=
  if row_id r =? i then mkRow (row_id r) x (row_desc r) (row_status r) else r.

(** The [AUTOINCREMENT] counter of the database, 0 before any insert. *)
Definition high_water (db : Database) : Z :=
  match db with
  | None => 0
  | Some t => seq t
  end.

(** The Task stored under an id, as [get_task_by_id] builds it. *)
Definition lookup (i : Z) (t : Table) : option Task :=
  option_map Core.task_of_row (find_row i t).

Definition task_not_found : Response :=
  mkResponse 404 (JDetail "Task not found").

Definition server_error : Response :=
  mkResponse 500 (PlainText "Internal Server Error").

(** The routes that can write to the table. *)
Definition is_write (req : Request) : bool :=
  match req with
  | POST_tasks _ | PUT_task _ _ | DELETE_task _ => true
  | _ => false
  end.


(** ** The specification's reading of a session

    The second reading, from the words of the specification rather than
    from the code: the tasks are a collection of [Task] values; a create
    adds a Task that echoes its inputs under the next id; an update
    overwrites the supplied fields of the Task with that id and retains the
    others; a delete removes the Task with that id; nothing else changes
    anything.  The state after a session is then, for every id, the state
    last written for it. *)

Module Spec.

Record State : Type := mkState {
  tasks : list Task;
  last_id : Z
}.

Definition create (c : TaskCreate) (st : State) : State :=
  mkState
    (tasks st ++ [mkTask (last_id st + 1) (create_name c) (create_desc c)
                         (create_status c)])
    (last_id st + 1).

Definition overwrite (i : Z) (u : TaskUpdate) (task : Task) : Task :=
  if id task =? i
  then mkTask (id task)
              (merge (update_name u) (name task))
              (merge (update_desc u) (desc task))
              (merge (update_status u) (status task))
  else task.

Definition update (i : Z) (u : TaskUpdate) (st : State) : State :=
  mkState (map (overwrite i u) (tasks st)) (last_id st).

Definition delete (i : Z) (st : State) : State :=
  mkState (filter (fun task => negb (id task =? i)) (tasks st)) (last_id st).

Definition step (req : Request) (st : State) : State :=
  match req with
  | POST_tasks c => create c st
  | PUT_task i u => update i u st
  | DELETE_task i => delete i st
  | GET_root | GET_tasks | GET_task _ => st
  end.

Fixpoint run (reqs : list Request) (st : State) : State :=
  match reqs with
  | [] => st
  | req :: reqs' => run reqs' (step req st)
  end.

(** Whether a Task with this id exists. *)
Definition holds (i : Z) (st : State) : bool :=
  existsb (fun task => id task =? i) (tasks st).

(** N: the creates of the session. *)
Fixpoint creates (reqs : list Request) : Z :=
  match reqs with
  | [] => 0
  | POST_tasks _ :: reqs' => 1 + creates reqs'
  | _ :: reqs' => creates reqs'
  end.

(** M: the deletes of the session that target a Task existing when they
    arrive (so no two of them target the same Task). *)
Fixpoint deletes (reqs : list Request) (st : State) : Z :=
  match reqs with
  | [] => 0
  | req :: reqs' =>
      match req with
      | DELETE_task i => if holds i st then 1 else 0
      | _ => 0
      end + deletes reqs' (step req st)
  end.

(** The Tasks a table stands for. *)
Definition of_table (t : Table) : State :=
  mkState (map Core.task_of_row (rows t)) (seq t).

End Spec.

(** ** Sample data *)

(** The table [backend/db.py] makes of an empty database file. *)
Definition seeded : Table :=
  mkTable [ mkRow 1 "TASK-1" "First task to complete" 0;
            mkRow 2 "TASK-2" "Second task to complete" 0;
            mkRow 3 "TASK-3" "Third task to complete" 0 ] 3.

(** The tasks a seeding leaves when the counter stood at [k]. *)
Definition seed_tasks (k : Z) : list Task :=
  [ mkTask (k + 1) "TASK-1" "First task to complete" false;
    mkTask (k + 2) "TASK-2" "Second task to complete" false;
    mkTask (k + 3) "TASK-3" "Third task to complete" false ].

(** A table some way into its life: ids 2 and 3 and 5 to 7 are gone. *)
Definition one_done : Table :=
  mkTable [ mkRow 1 "TASK-1" "First task to complete" 1;
            mkRow 4 "TASK-4" "" 0 ] 7.

(** A session of requests. *)
Definition session : list Request :=
  [ POST_tasks (mkTaskCreate "a" "first" false);
    DELETE_task 4;
    POST_tasks (mkTaskCreate "b" "second" true);
    PUT_task 5 (mkTaskUpdate (Some "b2"%string) None None);
    DELETE_task 2;
    DELETE_task 2;
    POST_tasks (mkTaskCreate "c" "third" false) ].

(** * Properties *)

(** ** Integers and rowids *)

Lemma py_bool_b2z (b : bool) : Core.py_bool (Z.b2z b) = b.
Proof. destruct b; reflexivity. Qed.

Lemma b2z_py_bool (z : Z) : z = 0 \/ z = 1 -> Z.b2z (Core.py_bool z) = z.
Proof. intros [-> | ->]; reflexivity. Qed.

Lemma max_rowid_nonneg (rs : list Row) : 0 <= max_rowid rs.
Proof. induction rs as [| r rs IH]; simpl; lia. Qed.

Lemma max_rowid_bound (rs : list Row) (r : Row) :
  In r rs -> row_id r <= max_rowid rs.
Proof.
  induction rs as [| r' rs IH]; simpl; [tauto |].
  intros [-> | Hin]; [| specialize (IH Hin)]; lia.
Qed.

Lemma top_nonneg (t : Table) : 0 <= top t.
Proof. unfold top. pose proof (max_rowid_nonneg (rows t)). lia. Qed.

Lemma in_int64_spec (z : Z) :
  in_int64 z = true <-> INT64_MIN <= z <= INT64_MAX.
Proof. unfold in_int64. rewrite andb_true_iff, !Z.leb_le. tauto. Qed.

Lemma find_app_fresh (rs : list Row) (r : Row) (i : Z) :
  max_rowid rs < i -> row_id r = i ->
  find (fun r => row_id r =? i) (rs ++ [r]) = Some r.
Proof.
  intros Hlt Hid. induction rs as [| r' rs IH]; simpl in *.
  - rewrite Hid, Z.eqb_refl. reflexivity.
  - destruct (row_id r' =? i) eqn:E; [apply Z.eqb_eq in E; lia |].
    apply IH. lia.
Qed.

(** ** Create, then get, on text *)

Lemma create_task_eq (n d : string) (s : bool) (t : Table) :
  top t < INT64_MAX ->
  Core.create_task n d s (Some t)
  = (Return (mkTask (top t + 1) n d s),
     Some (mkTable (rows t ++ [mkRow (top t + 1) n d (Z.b2z s)]) (top t + 1))).
Proof.
  intros Hroom. unfold Core.create_task, bind, insert, ret.
  destruct (INT64_MAX <=? top t) eqn:E; [apply Z.leb_le in E; lia |].
  reflexivity.
Qed.

(** The round trip on text: when the table exists and its rowids are not
    exhausted, [create_task n d s] returns a Task [{id, n, d, s}] and
    [get_task_by_id] on that id, run on the database the create left,
    returns the same Task. *)
Theorem create_then_get_roundtrip (n d : string) (s : bool) (t : Table) :
  top t < INT64_MAX ->
  exists (i : Z) (db' : Database),
    Core.create_task n d s (Some t) = (Return (mkTask i n d s), db')
    /\ Core.get_task_by_id i db' = (Return (Some (mkTask i n d s)), db').
Proof.
  intros Hroom. eexists; eexists. split; [apply create_task_eq; exact Hroom |].
  pose proof (top_nonneg t) as Hpos.
  unfold Core.get_task_by_id, bind, select_by_id, ret.
  assert (Hin : in_int64 (top t + 1) = true).
  { apply in_int64_spec. unfold INT64_MIN, INT64_MAX in *. lia. }
  rewrite Hin. cbn [rows].
  rewrite (find_app_fresh _ (mkRow (top t + 1) n d (Z.b2z s)));
    [| unfold top; lia | reflexivity].
  unfold Core.task_of_row; cbn. rewrite py_bool_b2z. reflexivity.
Qed.

Lemma create_then_get_roundtrip_witness :
  top one_done < INT64_MAX
  /\ exists (i : Z) (db' : Database),
       Core.create_task "buy milk" "two litres" true (Some one_done)
       = (Return (mkTask i "buy milk" "two litres" true), db')
       /\ Core.get_task_by_id i db'
          = (Return (Some (mkTask i "buy milk" "two litres" true)), db').
Proof.
  split; [reflexivity |].
  apply (create_then_get_roundtrip "buy milk" "two litres" true one_done).
  reflexivity.
Defined.

(** ** Well-formed tables *)

Lemma rows_ok_cons (lo hi : Z) (r : Row) (rs : list Row) :
  rows_ok lo hi (r :: rs) = true <->
  lo < row_id r <= hi /\ status01 r /\ rows_ok (row_id r) hi rs = true.
Proof.
  unfold status01. simpl.
  rewrite !andb_true_iff, orb_true_iff, Z.ltb_lt, Z.leb_le, !Z.eqb_eq. tauto.
Qed.

Lemma rows_ok_In (lo hi : Z) (rs : list Row) (r : Row) :
  rows_ok lo hi rs = true -> In r rs -> lo < row_id r <= hi /\ status01 r.
Proof.
  revert lo. induction rs as [| r' rs IH]; intros lo Hok Hin; [destruct Hin |].
  apply rows_ok_cons in Hok as (Hr & Hs & Hok).
  destruct Hin as [-> | Hin]; [tauto |].
  destruct (IH _ Hok Hin) as [Hb Hs']. split; [lia | exact Hs'].
Qed.

Lemma rows_ok_weaken (lo lo' hi hi' : Z) (rs : list Row) :
  lo' <= lo -> hi <= hi' -> rows_ok lo hi rs = true -> rows_ok lo' hi' rs = true.
Proof.
  revert lo lo'. induction rs as [| r rs IH]; intros lo lo' Hlo Hhi Hok;
    [reflexivity |].
  apply rows_ok_cons in Hok as (Hr & Hs & Hok). apply rows_ok_cons.
  repeat split; try lia; try exact Hs. apply (IH (row_id r)); auto; lia.
Qed.

Lemma rows_ok_max (lo hi : Z) (rs : list Row) :
  0 <= hi -> rows_ok lo hi rs = true -> max_rowid rs <= hi.
Proof.
  intros Hhi. revert lo. induction rs as [| r rs IH]; intros lo Hok; simpl;
    [exact Hhi |].
  apply rows_ok_cons in Hok as (Hr & _ & Hok). specialize (IH _ Hok). lia.
Qed.

(** Appending a row with a larger id, as INSERT does. *)
Lemma rows_ok_snoc (lo hi i : Z) (rs : list Row) (r : Row) :
  rows_ok lo hi rs = true -> row_id r = i -> lo < i -> hi < i -> status01 r ->
  rows_ok lo i (rs ++ [r]) = true.
Proof.
  intros Hok Hid Hlo Hhi Hs. revert lo Hok Hlo.
  induction rs as [| r' rs IH]; intros lo Hok Hlo.
  - apply rows_ok_cons. repeat split; try lia; auto.
  - apply rows_ok_cons in Hok as (Hr & Hs' & Hok).
    change ((r' :: rs) ++ [r]) with (r' :: (rs ++ [r])). apply rows_ok_cons.
    repeat split; try lia; auto. apply IH; auto; lia.
Qed.

(** Dropping rows, as DELETE does. *)
Lemma rows_ok_filter (f : Row -> bool) (lo hi : Z) (rs : list Row) :
  rows_ok lo hi rs = true -> rows_ok lo hi (filter f rs) = true.
Proof.
  revert lo. induction rs as [| r rs IH]; intros lo Hok; [reflexivity |].
  apply rows_ok_cons in Hok as (Hr & Hs & Hok). simpl. destruct (f r).
  - apply rows_ok_cons. auto.
  - apply (rows_ok_weaken (row_id r) lo hi hi); auto; lia.
Qed.

(** Rewriting rows in place without touching their ids, as UPDATE does. *)
Lemma rows_ok_map (f : Row -> Row) (lo hi : Z) (rs : list Row) :
  (forall r, row_id (f r) = row_id r) ->
  (forall r, status01 r -> status01 (f r)) ->
  rows_ok lo hi rs = true -> rows_ok lo hi (map f rs) = true.
Proof.
  intros Hid Hst. revert lo. induction rs as [| r rs IH]; intros lo Hok;
    [reflexivity |].
  apply rows_ok_cons in Hok as (Hr & Hs & Hok). simpl. apply rows_ok_cons.
  rewrite Hid. auto.
Qed.

Lemma wf_table_spec (t : Table) :
  wf_table t = true <->
  0 <= seq t <= INT64_MAX /\ rows_ok 0 (seq t) (rows t) = true.
Proof.
  unfold wf_table. rewrite !andb_true_iff, !Z.leb_le. tauto.
Qed.

Lemma wf_top (t : Table) : wf_table t = true -> top t = seq t.
Proof.
  intros Hwf. apply wf_table_spec in Hwf as [Hseq Hok].
  pose proof (rows_ok_max _ _ _ (proj1 Hseq) Hok). unfold top. lia.
Qed.

(** The first row with a given id is the only one. *)
Lemma rows_ok_find_first (lo hi i : Z) (rs : list Row) :
  rows_ok lo hi rs = true -> i <= lo ->
  find (fun r => row_id r =? i) rs = None.
Proof.
  intros Hok Hle. destruct (find _ rs) as [r |] eqn:Hfind; [| reflexivity].
  apply find_some in Hfind as [Hin Heq]. apply Z.eqb_eq in Heq.
  apply (rows_ok_In _ _ _ _ Hok) in Hin. lia.
Qed.

Lemma rows_ok_find_beyond (lo hi i : Z) (rs : list Row) :
  rows_ok lo hi rs = true -> hi < i ->
  find (fun r => row_id r =? i) rs = None.
Proof.
  intros Hok Hlt. destruct (find _ rs) as [r |] eqn:Hfind; [| reflexivity].
  apply find_some in Hfind as [Hin Heq]. apply Z.eqb_eq in Heq.
  apply (rows_ok_In _ _ _ _ Hok) in Hin. lia.
Qed.

Lemma rows_ok_unique (lo hi i : Z) (rs : list Row) (r0 r : Row) :
  rows_ok lo hi rs = true ->
  find (fun r => row_id r =? i) rs = Some r0 ->
  In r rs -> row_id r = i -> r = r0.
Proof.
  revert lo. induction rs as [| r' rs IH]; intros lo Hok Hfind Hin Hid;
    [destruct Hin |].
  apply rows_ok_cons in Hok as (Hr & Hs & Hok). simpl in Hfind.
  destruct (row_id r' =? i) eqn:E.
  - injection Hfind as <-. apply Z.eqb_eq in E.
    destruct Hin as [-> | Hin]; [reflexivity |].
    apply (rows_ok_In _ _ _ _ Hok) in Hin. lia.
  - apply Z.eqb_neq in E. destruct Hin as [-> | Hin]; [congruence |].
    apply (IH _ Hok Hfind Hin Hid).
Qed.

Lemma stored_find (i : Z) (t : Table) :
  stored i (Some t) = true <->
  exists r, find (fun r => row_id r =? i) (rows t) = Some r.
Proof.
  simpl. split.
  - intros H. apply existsb_exists in H as (r & Hin & Heq).
    destruct (find _ (rows t)) as [r' |] eqn:Hfind; [eauto |].
    rewrite (find_none _ _ Hfind _ Hin) in Heq. discriminate.
  - intros (r & Hfind). apply find_some in Hfind as [Hin Heq].
    apply existsb_exists. eauto.
Qed.

Lemma not_stored_find (i : Z) (t : Table) :
  stored i (Some t) = false <->
  find (fun r => row_id r =? i) (rows t) = None.
Proof.
  pose proof (stored_find i t) as H.
  destruct (stored i (Some t)), (find _ (rows t)) as [r |].
  - split; [intros; discriminate | intros; discriminate].
  - destruct (proj1 H eq_refl) as (r & Hr). discriminate.
  - assert (false = true) by (apply H; eauto). discriminate.
  - tauto.
Qed.

(** A stored id is a 64-bit integer. *)
Lemma wf_stored_in_int64 (i : Z) (t : Table) :
  wf_table t = true -> stored i (Some t) = true -> in_int64 i = true.
Proof.
  intros Hwf Hst. apply wf_table_spec in Hwf as [Hseq Hok].
  apply stored_find in Hst as (r & Hfind).
  apply find_some in Hfind as [Hin Heq]. apply Z.eqb_eq in Heq.
  apply (rows_ok_In _ _ _ _ Hok) in Hin. apply in_int64_spec.
  unfold INT64_MIN, INT64_MAX in *. lia.
Qed.

(** ** The domain functions on an existing table *)

Lemma get_task_by_id_eq (i : Z) (t : Table) :
  in_int64 i = true ->
  Core.get_task_by_id i (Some t)
  = (Return (option_map Core.task_of_row (find_row i t)), Some t).
Proof.
  intros Hin. unfold Core.get_task_by_id, bind, select_by_id, find_row.
  rewrite Hin. destruct (find _ (rows t)); reflexivity.
Qed.

Lemma get_task_by_id_overflow (i : Z) (t : Table) :
  in_int64 i = false ->
  Core.get_task_by_id i (Some t) = (Raise int_too_large, Some t).
Proof.
  intros Hin. unfold Core.get_task_by_id, bind, select_by_id.
  rewrite Hin. reflexivity.
Qed.

Lemma update_task_eq (i : Z) (n d : option string) (s : option bool)
  (t : Table) (r0 : Row) :
  in_int64 i = true -> find_row i t = Some r0 ->
  let n' := merge n (row_name r0) in
  let d' := merge d (row_desc r0) in
  let s' := merge s (Core.py_bool (row_status r0)) in
  Core.update_task i n d s (Some t)
  = (Return (Some (mkTask i n' d' s')),
     Some (mkTable (map (set_row i n' d' (Z.b2z s')) (rows t)) (seq t))).
Proof.
  intros Hin Hfind. cbv zeta. unfold Core.update_task.
  unfold bind at 1. rewrite (get_task_by_id_eq _ _ Hin), Hfind. cbn [option_map].
  unfold bind, update, ret. rewrite Hin.
  destruct n, d, s; reflexivity.
Qed.

Lemma update_task_absent (i : Z) (n d : option string) (s : option bool)
  (t : Table) :
  in_int64 i = true -> find_row i t = None ->
  Core.update_task i n d s (Some t) = (Return None, Some t).
Proof.
  intros Hin Hfind. unfold Core.update_task.
  unfold bind at 1. rewrite (get_task_by_id_eq _ _ Hin), Hfind. reflexivity.
Qed.

Lemma delete_task_eq (i : Z) (t : Table) :
  in_int64 i = true ->
  Core.delete_task i (Some t)
  = (Return (0 <? Z.of_nat (List.length (filter (fun r => row_id r =? i) (rows t)))),
     Some (mkTable (filter (fun r => negb (row_id r =? i)) (rows t)) (seq t))).
Proof.
  intros Hin. unfold Core.delete_task, bind, delete, ret. rewrite Hin.
  reflexivity.
Qed.

Lemma filter_none {A} (f : A -> bool) (l : list A) :
  find f l = None -> filter f l = [] /\ filter (fun x => negb (f x)) l = l.
Proof.
  induction l as [| a l IH]; simpl; [auto |].
  destruct (f a); [discriminate |]. intros H. destruct (IH H) as [-> ->]. auto.
Qed.

Lemma find_filter_out {A} (f : A -> bool) (l : list A) :
  find f (filter (fun x => negb (f x)) l) = None.
Proof.
  induction l as [| a l IH]; simpl; [reflexivity |].
  destruct (f a) eqn:E; simpl; [exact IH | rewrite E; exact IH].
Qed.

Lemma delete_task_absent (i : Z) (t : Table) :
  in_int64 i = true -> find_row i t = None ->
  Core.delete_task i (Some t) = (Return false, Some t).
Proof.
  intros Hin Hfind. rewrite (delete_task_eq _ _ Hin).
  destruct (filter_none _ _ Hfind) as [-> ->]. destruct t; reflexivity.
Qed.

(** ** The handlers on an existing table *)

Lemma app_GET_task (i : Z) (db : Database) :
  app (GET_task i) db
  = match Core.get_task_by_id i db with
    | (Return (Some task), db') => (mkResponse 200 (JTask task), db')
    | (Return None, db') => (task_not_found, db')
    | (Raise e, db') => (respond (Raise e), db')
    end.
Proof.
  unfold app, route, fmap, get_task, bind.
  destruct (Core.get_task_by_id i db) as [[[task |] | e] db']; reflexivity.
Qed.

Lemma app_PUT_task (i : Z) (u : TaskUpdate) (db : Database) :
  app (PUT_task i u) db
  = match Core.update_task i (update_name u) (update_desc u) (update_status u) db
    with
    | (Return (Some task), db') => (mkResponse 200 (JTask task), db')
    | (Return None, db') => (task_not_found, db')
    | (Raise e, db') => (respond (Raise e), db')
    end.
Proof.
  unfold app, route, fmap, update_existing_task, bind.
  destruct (Core.update_task _ _ _ _ db) as [[[task |] | e] db']; reflexivity.
Qed.

Lemma app_DELETE_task (i : Z) (db : Database) :
  app (DELETE_task i) db
  = match Core.delete_task i db with
    | (Return true, db') =>
        (mkResponse 200 (JMessage "Task deleted successfully"), db')
    | (Return false, db') => (task_not_found, db')
    | (Raise e, db') => (respond (Raise e), db')
    end.
Proof.
  unfold app, route, fmap, delete_existing_task, bind.
  destruct (Core.delete_task i db) as [[[|] | e] db']; reflexivity.
Qed.

Lemma app_POST_tasks (c : TaskCreate) (db : Database) :
  app (POST_tasks c) db
  = match Core.create_task (create_name c) (create_desc c) (create_status c) db
    with
    | (Return task, db') => (mkResponse 200 (JTask task), db')
    | (Raise e, db') => (respond (Raise e), db')
    end.
Proof.
  unfold app, route, fmap, create_new_task, bind.
  destruct (Core.create_task _ _ _ db) as [[task | e] db']; reflexivity.
Qed.

Lemma app_GET_tasks (db : Database) :
  app GET_tasks db
  = match Core.get_all_tasks db with
    | (Return l, db') => (mkResponse 200 (JTasks l), db')
    | (Raise e, db') => (respond (Raise e), db')
    end.
Proof.
  unfold app, route, fmap, get_tasks, bind.
  destruct (Core.get_all_tasks db) as [[l | e] db']; reflexivity.
Qed.

(** ** C3: an id without a row *)

(** C3, as the code has it.  On an existing table, for every id that is a
    signed 64-bit integer and has no row: [get_task_by_id] and [update_task]
    return [None] and [delete_task] returns [False], none of them raising and
    none changing the database, and the three handlers answer 404 with detail
    "Task not found". *)
Theorem not_found_is_404 (i : Z) (t : Table) (n d : option string)
  (s : option bool) :
  in_int64 i = true -> stored i (Some t) = false ->
  Core.get_task_by_id i (Some t) = (Return None, Some t)
  /\ Core.update_task i n d s (Some t) = (Return None, Some t)
  /\ Core.delete_task i (Some t) = (Return false, Some t)
  /\ app (GET_task i) (Some t) = (task_not_found, Some t)
  /\ app (PUT_task i (mkTaskUpdate n d s)) (Some t) = (task_not_found, Some t)
  /\ app (DELETE_task i) (Some t) = (task_not_found, Some t).
Proof.
  intros Hin Hst. apply not_stored_find in Hst. fold (find_row i t) in Hst.
  assert (Hget : Core.get_task_by_id i (Some t) = (Return None, Some t)).
  { rewrite (get_task_by_id_eq _ _ Hin), Hst. reflexivity. }
  pose proof (update_task_absent i n d s t Hin Hst) as Hupd.
  pose proof (delete_task_absent i t Hin Hst) as Hdel.
  repeat split; auto.
  - rewrite app_GET_task, Hget. reflexivity.
  - rewrite app_PUT_task. cbn [update_name update_desc update_status].
    rewrite Hupd. reflexivity.
  - rewrite app_DELETE_task, Hdel. reflexivity.
Qed.

Lemma not_found_is_404_witness :
  (in_int64 999 = true /\ stored 999 (Some seeded) = false)
  /\ Core.get_task_by_id 999 (Some seeded) = (Return None, Some seeded)
  /\ Core.update_task 999 (Some "x"%string) None None (Some seeded)
     = (Return None, Some seeded)
  /\ Core.delete_task 999 (Some seeded) = (Return false, Some seeded)
  /\ app (GET_task 999) (Some seeded) = (task_not_found, Some seeded)
  /\ app (PUT_task 999 (mkTaskUpdate (Some "x"%string) None None)) (Some seeded)
     = (task_not_found, Some seeded)
  /\ app (DELETE_task 999) (Some seeded) = (task_not_found, Some seeded).
Proof.
  split; [split; reflexivity |].
  apply (not_found_is_404 999 seeded (Some "x"%string) None None); reflexivity.
Defined.

(** C3 as stated fails for an id that is not a 64-bit integer: binding
    2^63 to the statement raises [OverflowError] in [get_task_by_id],
    [update_task] and [delete_task], and the handlers answer 500. *)
Lemma not_found_out_of_range :
  let i := 9223372036854775808 in
  let db := Some (mkTable [] 0) in
  stored i db = false
  /\ Core.get_task_by_id i db = (Raise int_too_large, db)
  /\ Core.update_task i None None None db = (Raise int_too_large, db)
  /\ Core.delete_task i db = (Raise int_too_large, db)
  /\ app (GET_task i) db = (server_error, db)
  /\ app (PUT_task i (mkTaskUpdate None None None)) db = (server_error, db)
  /\ app (DELETE_task i) db = (server_error, db)
  /\ server_error <> task_not_found.
Proof.
  cbv zeta. repeat split; try reflexivity. discriminate.
Qed.

(** ** C6: delete, then get, then delete again *)

Lemma rowcount_positive {A} (f : A -> bool) (l : list A) :
  (0 <? Z.of_nat (List.length (filter f l))) = existsb f l.
Proof.
  induction l as [| a l IH]; simpl; [reflexivity |].
  destruct (f a); simpl; [| exact IH].
  apply Z.ltb_lt. lia.
Qed.

(** C6, as the code has it.  On an existing table, for every id that is a
    signed 64-bit integer: [delete_task] returns whether a row was stored;
    on the database it leaves, [get_task_by_id] returns [None], a second
    [delete_task] returns [False] without raising, and the handlers answer
    404. *)
Theorem delete_then_not_found (i : Z) (t : Table) :
  in_int64 i = true ->
  exists db1 : Database,
    Core.delete_task i (Some t) = (Return (stored i (Some t)), db1)
    /\ Core.get_task_by_id i db1 = (Return None, db1)
    /\ Core.delete_task i db1 = (Return false, db1)
    /\ app (GET_task i) db1 = (task_not_found, db1)
    /\ app (DELETE_task i) db1 = (task_not_found, db1).
Proof.
  intros Hin. rewrite (delete_task_eq _ _ Hin), rowcount_positive.
  eexists. split; [reflexivity |].
  set (t1 := mkTable _ _).
  assert (Hgone : find_row i t1 = None) by apply find_filter_out.
  assert (Hget : Core.get_task_by_id i (Some t1) = (Return None, Some t1)).
  { rewrite (get_task_by_id_eq _ _ Hin), Hgone. reflexivity. }
  pose proof (delete_task_absent i t1 Hin Hgone) as Hdel.
  repeat split; auto.
  - rewrite app_GET_task, Hget. reflexivity.
  - rewrite app_DELETE_task, Hdel. reflexivity.
Qed.

Lemma delete_then_not_found_witness :
  in_int64 2 = true
  /\ exists db1 : Database,
       Core.delete_task 2 (Some seeded) = (Return (stored 2 (Some seeded)), db1)
       /\ Core.get_task_by_id 2 db1 = (Return None, db1)
       /\ Core.delete_task 2 db1 = (Return false, db1)
       /\ app (GET_task 2) db1 = (task_not_found, db1)
       /\ app (DELETE_task 2) db1 = (task_not_found, db1).
Proof.
  split; [reflexivity |]. apply (delete_then_not_found 2 seeded). reflexivity.
Defined.

(** C6 as stated fails for an id that is not a 64-bit integer: the first
    [delete_task] already raises [OverflowError], and so does every later
    one; the handler answers 500, not 404. *)
Lemma delete_out_of_range :
  let i := 9223372036854775808 in
  let db := Some seeded in
  Core.delete_task i db = (Raise int_too_large, db)
  /\ Core.get_task_by_id i db = (Raise int_too_large, db)
  /\ app (DELETE_task i) db = (server_error, db)
  /\ server_error <> task_not_found.
Proof.
  cbv zeta. repeat split; try reflexivity. discriminate.
Qed.

(** ** Updates of a stored row *)

Lemma find_map_same_id (f : Row -> Row) (i : Z) (rs : list Row) :
  (forall r, row_id (f r) = row_id r) ->
  find (fun r => row_id r =? i) (map f rs)
  = option_map f (find (fun r => row_id r =? i) rs).
Proof.
  intros Hid. induction rs as [| r rs IH]; simpl; [reflexivity |].
  rewrite Hid. destruct (row_id r =? i); [reflexivity | exact IH].
Qed.

Lemma set_row_id (i : Z) (n d : string) (s : Z) (r : Row) :
  row_id (set_row i n d s r) = row_id r.
Proof. unfold set_row. destruct (row_id r =? i); reflexivity. Qed.

Lemma find_row_id (i : Z) (t : Table) (r : Row) :
  find_row i t = Some r -> row_id r = i.
Proof.
  intros H. apply find_some in H as [_ H]. apply Z.eqb_eq in H. exact H.
Qed.

(** In a well-formed table the UPDATE touches exactly the row found. *)
Lemma map_set_row (i : Z) (n d : string) (s : Z) (t : Table) (r0 : Row)
  (g : Row -> Row) :
  wf_table t = true -> find_row i t = Some r0 ->
  g r0 = mkRow i n d s -> (forall r, row_id r <> i -> g r = r) ->
  map (set_row i n d s) (rows t) = map g (rows t).
Proof.
  intros Hwf Hfind Hg0 Hg. apply wf_table_spec in Hwf as [_ Hok].
  apply map_ext_in. intros r Hr. unfold set_row.
  destruct (row_id r =? i) eqn:E.
  - apply Z.eqb_eq in E.
    rewrite (rows_ok_unique _ _ _ _ _ _ Hok Hfind Hr E), Hg0.
    rewrite (find_row_id _ _ _ Hfind). reflexivity.
  - apply Z.eqb_neq in E. symmetry. apply Hg. exact E.
Qed.

Lemma wf_find_status (i : Z) (t : Table) (r0 : Row) :
  wf_table t = true -> find_row i t = Some r0 ->
  Z.b2z (Core.py_bool (row_status r0)) = row_status r0.
Proof.
  intros Hwf Hfind. apply wf_table_spec in Hwf as [_ Hok].
  apply find_some in Hfind as [Hin _].
  apply b2z_py_bool. apply (rows_ok_In _ _ _ _ Hok Hin).
Qed.

(** ** C4: the update that supplies nothing *)

(** C4. In a well-formed table, for every stored id, [update_task] with
    [name], [desc] and [status] all left at [None] returns the Task that
    [get_task_by_id] returns and leaves the database as it was. *)
Theorem update_nothing_is_identity (i : Z) (t : Table) :
  wf_table t = true -> stored i (Some t) = true ->
  exists task : Task,
    Core.get_task_by_id i (Some t) = (Return (Some task), Some t)
    /\ Core.update_task i None None None (Some t) = (Return (Some task), Some t).
Proof.
  intros Hwf Hst. pose proof (wf_stored_in_int64 _ _ Hwf Hst) as Hin.
  apply stored_find in Hst as (r0 & Hfind). fold (find_row i t) in Hfind.
  exists (Core.task_of_row r0). split.
  - rewrite (get_task_by_id_eq _ _ Hin), Hfind. reflexivity.
  - rewrite (update_task_eq i None None None t r0 Hin Hfind). cbn [merge].
    rewrite (map_set_row _ _ _ _ t r0 (fun r => r) Hwf Hfind).
    + rewrite map_id. unfold Core.task_of_row.
      rewrite (find_row_id _ _ _ Hfind). destruct t; reflexivity.
    + rewrite (wf_find_status _ _ _ Hwf Hfind).
      rewrite <- (find_row_id _ _ _ Hfind). destruct r0; reflexivity.
    + reflexivity.
Qed.

Lemma update_nothing_is_identity_witness :
  (wf_table seeded = true /\ stored 2 (Some seeded) = true)
  /\ exists task : Task,
       Core.get_task_by_id 2 (Some seeded) = (Return (Some task), Some seeded)
       /\ Core.update_task 2 None None None (Some seeded)
          = (Return (Some task), Some seeded).
Proof.
  split; [split; reflexivity |].
  apply (update_nothing_is_identity 2 seeded); reflexivity.
Defined.

(** ** C5: the update that supplies a name *)

(** C5. In a well-formed table, for every stored id, [update_task] with
    only [name="X"] supplied returns the stored Task with its name replaced
    by X; the table it leaves is the old one with the name of that row
    replaced and nothing else changed (same id, desc and status in that row,
    every other row as it was), and [get_task_by_id] then returns the
    renamed Task. *)
Theorem update_name_only (i : Z) (x : string) (t : Table) :
  wf_table t = true -> stored i (Some t) = true ->
  exists (task : Task) (db' : Database),
    Core.get_task_by_id i (Some t) = (Return (Some task), Some t)
    /\ id task = i
    /\ Core.update_task i (Some x) None None (Some t)
       = (Return (Some (mkTask i x (desc task) (status task))), db')
    /\ db' = Some (mkTable (map (rename_row i x) (rows t)) (seq t))
    /\ Core.get_task_by_id i db'
       = (Return (Some (mkTask i x (desc task) (status task))), db').
Proof.
  intros Hwf Hst. pose proof (wf_stored_in_int64 _ _ Hwf Hst) as Hin.
  apply stored_find in Hst as (r0 & Hfind). fold (find_row i t) in Hfind.
  pose proof (find_row_id _ _ _ Hfind) as Hid.
  exists (Core.task_of_row r0). eexists.
  split; [rewrite (get_task_by_id_eq _ _ Hin), Hfind; reflexivity |].
  split; [exact Hid |].
  rewrite (update_task_eq i (Some x) None None t r0 Hin Hfind). cbn [merge].
  rewrite (wf_find_status _ _ _ Hwf Hfind).
  rewrite (map_set_row _ _ _ _ t r0 (rename_row i x) Hwf Hfind).
  - split; [reflexivity |]. split; [reflexivity |].
    rewrite (get_task_by_id_eq _ _ Hin). unfold find_row. cbn [rows].
    rewrite find_map_same_id.
    + fold (find_row i t). rewrite Hfind. cbn [option_map].
      unfold rename_row. rewrite Hid, Z.eqb_refl. reflexivity.
    + intros r. unfold rename_row. destruct (row_id r =? i); reflexivity.
  - unfold rename_row. rewrite Hid, Z.eqb_refl. reflexivity.
  - intros r Hne. unfold rename_row.
    destruct (row_id r =? i) eqn:E; [apply Z.eqb_eq in E; lia | reflexivity].
Qed.

Lemma update_name_only_witness :
  (wf_table seeded = true /\ stored 2 (Some seeded) = true)
  /\ exists (task : Task) (db' : Database),
       Core.get_task_by_id 2 (Some seeded) = (Return (Some task), Some seeded)
       /\ id task = 2
       /\ Core.update_task 2 (Some "X"%string) None None (Some seeded)
          = (Return (Some (mkTask 2 "X" (desc task) (status task))), db')
       /\ db' = Some (mkTable (map (rename_row 2 "X") (rows seeded)) (seq seeded))
       /\ Core.get_task_by_id 2 db'
          = (Return (Some (mkTask 2 "X" (desc task) (status task))), db').
Proof.
  split; [split; reflexivity |].
  apply (update_name_only 2 "X" seeded); reflexivity.
Defined.

(** ** C10: the merge *)

Lemma update_task_not_null (i : Z) (n d : option string) (s : option bool)
  (db : Database) :
  fst (Core.update_task i n d s db) <> Raise not_null_failed.
Proof.
  unfold Core.update_task, Core.get_task_by_id.
  unfold bind, select_by_id, update, ret.
  destruct db as [t |]; [| discriminate].
  destruct (in_int64 i) eqn:Hin; [| discriminate].
  destruct (find _ (rows t)) as [r0 |]; cbv beta iota; discriminate.
Qed.

(** C10. In a well-formed table, for every stored id and every choice of
    the three optional arguments, [update_task] returns, and stores, the
    Task whose every field is the argument when one is supplied and the
    stored value when the argument is [None] (which is also what a request
    body that leaves the field out carries); a supplied [status=False] is
    therefore applied; and on no database does the UPDATE it issues fail the
    NOT NULL constraint. *)
Theorem update_merges_fields (i : Z) (n d : option string) (s : option bool)
  (t : Table) :
  wf_table t = true -> stored i (Some t) = true ->
  exists (task : Task) (db' : Database),
    Core.get_task_by_id i (Some t) = (Return (Some task), Some t)
    /\ (let merged :=
          mkTask i (merge n (name task)) (merge d (desc task))
                 (merge s (status task)) in
        Core.update_task i n d s (Some t) = (Return (Some merged), db')
        /\ Core.get_task_by_id i db' = (Return (Some merged), db')
        /\ app (PUT_task i (mkTaskUpdate n d s)) (Some t)
           = (mkResponse 200 (JTask merged), db')
        /\ (n = None -> name merged = name task)
        /\ (d = None -> desc merged = desc task)
        /\ (s = None -> status merged = status task)
        /\ (forall v, n = Some v -> name merged = v)
        /\ (forall v, d = Some v -> desc merged = v)
        /\ (forall v, s = Some v -> status merged = v)
        /\ (s = Some false -> status merged = false))
    /\ (forall db : Database,
          fst (Core.update_task i n d s db) <> Raise not_null_failed).
Proof.
  intros Hwf Hst. pose proof (wf_stored_in_int64 _ _ Hwf Hst) as Hin.
  apply stored_find in Hst as (r0 & Hfind). fold (find_row i t) in Hfind.
  exists (Core.task_of_row r0). eexists.
  split; [rewrite (get_task_by_id_eq _ _ Hin), Hfind; reflexivity |].
  split; [| intros db; apply update_task_not_null].
  cbv zeta.
  pose proof (update_task_eq i n d s t r0 Hin Hfind) as Hupd. cbv zeta in Hupd.
  split; [exact Hupd |]. split; [| split].
  - rewrite (get_task_by_id_eq _ _ Hin). unfold find_row. cbn [rows].
    rewrite find_map_same_id by (intros; apply set_row_id).
    fold (find_row i t). rewrite Hfind. cbn [option_map].
    unfold set_row. rewrite (find_row_id _ _ _ Hfind), Z.eqb_refl.
    unfold Core.task_of_row at 1. cbn. rewrite py_bool_b2z. reflexivity.
  - rewrite app_PUT_task. cbn [update_name update_desc update_status].
    rewrite Hupd. reflexivity.
  - repeat split; intros; subst; reflexivity.
Qed.

Lemma update_merges_fields_witness :
  (wf_table one_done = true /\ stored 1 (Some one_done) = true)
  /\ exists (task : Task) (db' : Database),
       Core.get_task_by_id 1 (Some one_done) = (Return (Some task), Some one_done)
       /\ (let merged :=
             mkTask 1 (merge None (name task)) (merge None (desc task))
                    (merge (Some false) (status task)) in
           Core.update_task 1 None None (Some false) (Some one_done)
           = (Return (Some merged), db')
           /\ Core.get_task_by_id 1 db' = (Return (Some merged), db')
           /\ app (PUT_task 1 (mkTaskUpdate None None (Some false))) (Some one_done)
              = (mkResponse 200 (JTask merged), db')
           /\ (@None string = None -> name merged = name task)
           /\ (@None string = None -> desc merged = desc task)
           /\ (Some false = None -> status merged = status task)
           /\ (forall v, None = Some v -> name merged = v)
           /\ (forall v, None = Some v -> desc merged = v)
           /\ (forall v, Some false = Some v -> status merged = v)
           /\ (Some false = Some false -> status merged = false))
       /\ (forall db : Database,
             fst (Core.update_task 1 None None (Some false) db)
             <> Raise not_null_failed).
Proof.
  split; [split; reflexivity |].
  apply (update_merges_fields 1 None None (Some false) one_done); reflexivity.
Defined.

(** ** What each [init_db] does *)

Lemma max_rowid_app (rs rs' : list Row) :
  max_rowid (rs ++ rs') = Z.max (max_rowid rs) (max_rowid rs').
Proof.
  pose proof (max_rowid_nonneg rs').
  induction rs as [| r rs IH]; simpl; [lia | rewrite IH; lia].
Qed.

Lemma insert_eq (n d : string) (s : Z) (t : Table) :
  top t < INT64_MAX ->
  insert (Some n) (Some d) (Some s) (Some t)
  = (Return (top t + 1),
     Some (mkTable (rows t ++ [mkRow (top t + 1) n d s]) (top t + 1))).
Proof.
  intros Hroom. unfold insert.
  destruct (INT64_MAX <=? top t) eqn:E; [apply Z.leb_le in E; lia |].
  reflexivity.
Qed.

Lemma top_after_insert (rs : list Row) (k : Z) (r : Row) :
  max_rowid rs <= k -> row_id r = k + 1 ->
  top (mkTable (rs ++ [r]) (k + 1)) = k + 1.
Proof.
  intros Hmax Hid. unfold top. cbn [rows seq].
  rewrite max_rowid_app. unfold max_rowid at 2. cbn [fold_right].
  pose proof (max_rowid_nonneg rs). lia.
Qed.

Lemma backend_init_db_empty (t : Table) :
  rows t = [] -> top t + 3 <= INT64_MAX ->
  exists db' : Database,
    BackendDb.init_db (Some t) = (Return tt, db')
    /\ Core.get_all_tasks db' = (Return (seed_tasks (top t)), db').
Proof.
  intros Hempty Hroom. pose proof (top_nonneg t) as Hpos.
  assert (Hmax : max_rowid (rows t) <= top t) by (unfold top; lia).
  unfold BackendDb.init_db, bind, create_table_if_not_exists, select_count.
  rewrite Hempty. cbn [List.length Z.of_nat Z.eqb].
  unfold executemany. cbn [map BackendDb.default_tasks BackendDb.as_params
                             insert_each Z.b2z].
  unfold bind. rewrite insert_eq by lia.
  set (t1 := mkTable _ _).
  assert (H1 : top t1 = top t + 1).
  { apply top_after_insert; [exact Hmax | reflexivity]. }
  rewrite insert_eq by lia. rewrite H1.
  set (t2 := mkTable _ _).
  assert (H2 : top t2 = top t + 1 + 1).
  { apply top_after_insert; [| reflexivity].
    subst t1. cbn [rows]. rewrite max_rowid_app. simpl. lia. }
  rewrite insert_eq by lia. rewrite H2.
  unfold ret. eexists. split; [reflexivity |].
  unfold Core.get_all_tasks, bind, select_all, ret. cbn [rows].
  subst t2 t1. cbn [rows]. rewrite Hempty. cbn.
  replace (top t + 1 + 1 + 1) with (top t + 3) by lia.
  replace (top t + 1 + 1) with (top t + 2) by lia.
  reflexivity.
Qed.

Lemma backend_init_db_populated (t : Table) :
  rows t <> [] -> BackendDb.init_db (Some t) = (Return tt, Some t).
Proof.
  intros Hrows.
  unfold BackendDb.init_db, bind, create_table_if_not_exists, select_count.
  destruct (rows t) as [| r rs]; [congruence |].
  replace (Z.of_nat (List.length (r :: rs)) =? 0) with false; [reflexivity |].
  symmetry. apply Z.eqb_neq. simpl List.length. lia.
Qed.

(** What each [init_db] does to a table.  The [init_db] of
    [backend/db.py], run on a database without the table or on an empty table
    with room for three more rowids, leaves exactly the three seed tasks;
    run on a table that has rows it changes nothing.  The [init_db] of the
    top-level [db.py] creates the table when it is absent and never inserts
    a row. *)
Theorem init_db_seeding (te tf : Table) :
  rows te = [] -> top te + 3 <= INT64_MAX -> rows tf <> [] ->
  (BackendDb.init_db None = (Return tt, Some seeded)
   /\ Core.get_all_tasks (Some seeded) = (Return (seed_tasks 0), Some seeded))
  /\ (exists db' : Database,
        BackendDb.init_db (Some te) = (Return tt, db')
        /\ Core.get_all_tasks db' = (Return (seed_tasks (top te)), db'))
  /\ BackendDb.init_db (Some tf) = (Return tt, Some tf)
  /\ Db.init_db None = (Return tt, Some (mkTable [] 0))
  /\ Db.init_db (Some te) = (Return tt, Some te)
  /\ Db.init_db (Some tf) = (Return tt, Some tf).
Proof.
  intros Hempty Hroom Hrows.
  split; [split; reflexivity |].
  split; [apply backend_init_db_empty; assumption |].
  split; [apply backend_init_db_populated; assumption |].
  repeat split.
Qed.

Lemma init_db_seeding_witness :
  (rows (mkTable [] 3) = [] /\ top (mkTable [] 3) + 3 <= INT64_MAX
   /\ rows one_done <> [])
  /\ (BackendDb.init_db None = (Return tt, Some seeded)
      /\ Core.get_all_tasks (Some seeded) = (Return (seed_tasks 0), Some seeded))
  /\ (exists db' : Database,
        BackendDb.init_db (Some (mkTable [] 3)) = (Return tt, db')
        /\ Core.get_all_tasks db'
           = (Return (seed_tasks (top (mkTable [] 3))), db'))
  /\ BackendDb.init_db (Some one_done) = (Return tt, Some one_done)
  /\ Db.init_db None = (Return tt, Some (mkTable [] 0))
  /\ Db.init_db (Some (mkTable [] 3)) = (Return tt, Some (mkTable [] 3))
  /\ Db.init_db (Some one_done) = (Return tt, Some one_done).
Proof.
  split.
  - split; [reflexivity |]. split; [vm_compute; discriminate | discriminate].
  - apply (init_db_seeding (mkTable [] 3) one_done);
      [reflexivity | vm_compute; discriminate | discriminate].
Defined.

(** ** One request on a well-formed table *)

Lemma serve_cons (req : Request) (reqs : list Request) (db : Database) :
  serve (req :: reqs) db
  = ((req, fst (app req db)) :: fst (serve reqs (snd (app req db))),
     snd (serve reqs (snd (app req db)))).
Proof.
  simpl. destruct (app req db) as [resp db1]. cbn [fst snd].
  destruct (serve reqs db1) as [trace db2]. reflexivity.
Qed.

Lemma app_no_table (req : Request) : snd (app req None) = None.
Proof. destruct req; reflexivity. Qed.

Lemma app_POST_wf (c : TaskCreate) (t : Table) :
  wf_table t = true ->
  app (POST_tasks c) (Some t)
  = if seq t <? INT64_MAX
    then (mkResponse 200
            (JTask (mkTask (seq t + 1) (create_name c) (create_desc c)
                           (create_status c))),
          Some (mkTable
                  (rows t ++ [mkRow (seq t + 1) (create_name c) (create_desc c)
                                    (Z.b2z (create_status c))])
                  (seq t + 1)))
    else (server_error, Some t).
Proof.
  intros Hwf. rewrite app_POST_tasks. pose proof (wf_top _ Hwf) as Htop.
  destruct (seq t <? INT64_MAX) eqn:E.
  - apply Z.ltb_lt in E. rewrite create_task_eq by lia. rewrite Htop.
    reflexivity.
  - apply Z.ltb_ge in E. unfold Core.create_task, bind, insert.
    destruct (INT64_MAX <=? top t) eqn:E'; [reflexivity |].
    apply Z.leb_gt in E'. lia.
Qed.

Lemma app_PUT_some (j : Z) (u : TaskUpdate) (t : Table) :
  app (PUT_task j u) (Some t)
  = if in_int64 j
    then match find_row j t with
         | Some r0 =>
             let n' := merge (update_name u) (row_name r0) in
             let d' := merge (update_desc u) (row_desc r0) in
             let s' := merge (update_status u) (Core.py_bool (row_status r0)) in
             (mkResponse 200 (JTask (mkTask j n' d' s')),
              Some (mkTable (map (set_row j n' d' (Z.b2z s')) (rows t)) (seq t)))
         | None => (task_not_found, Some t)
         end
    else (server_error, Some t).
Proof.
  rewrite app_PUT_task. destruct (in_int64 j) eqn:Hin.
  - destruct (find_row j t) as [r0 |] eqn:Hfind.
    + pose proof (update_task_eq j (update_name u) (update_desc u)
                    (update_status u) t r0 Hin Hfind) as H.
      cbv zeta in H. rewrite H. reflexivity.
    + rewrite update_task_absent by assumption. reflexivity.
  - unfold Core.update_task. unfold bind at 1.
    rewrite get_task_by_id_overflow by assumption. reflexivity.
Qed.

Lemma app_DELETE_some (j : Z) (t : Table) :
  app (DELETE_task j) (Some t)
  = if in_int64 j
    then if existsb (fun r => row_id r =? j) (rows t)
         then (mkResponse 200 (JMessage "Task deleted successfully"),
               Some (mkTable (filter (fun r => negb (row_id r =? j)) (rows t))
                             (seq t)))
         else (task_not_found, Some t)
    else (server_error, Some t).
Proof.
  rewrite app_DELETE_task. destruct (in_int64 j) eqn:Hin.
  - rewrite delete_task_eq by assumption. rewrite rowcount_positive.
    destruct (existsb _ (rows t)) eqn:E; [reflexivity |].
    assert (Hfind : find_row j t = None) by (apply not_stored_find; exact E).
    destruct (filter_none _ _ Hfind) as [_ ->]. destruct t; reflexivity.
  - unfold Core.delete_task, bind, delete. rewrite Hin. reflexivity.
Qed.

Lemma app_GET_task_db (j : Z) (db : Database) : snd (app (GET_task j) db) = db.
Proof.
  unfold app, route, fmap, get_task, Core.get_task_by_id, bind, select_by_id.
  destruct db as [t |]; [| reflexivity].
  destruct (in_int64 j); [| reflexivity].
  destruct (find _ (rows t)); reflexivity.
Qed.

Lemma app_GET_tasks_db (db : Database) : snd (app GET_tasks db) = db.
Proof. destruct db; reflexivity. Qed.

(** Every request keeps the table well-formed. *)
Lemma app_wf (req : Request) (db : Database) :
  wf db = true -> wf (snd (app req db)) = true.
Proof.
  intros Hwf. destruct db as [t |]; [| rewrite app_no_table; reflexivity].
  simpl in Hwf. pose proof Hwf as Hwf'.
  apply wf_table_spec in Hwf' as [Hseq Hok].
  destruct req as [| c | | j | j u | j].
  - exact Hwf.
  - rewrite (app_POST_wf _ _ Hwf).
    destruct (seq t <? INT64_MAX) eqn:E; [| exact Hwf].
    apply Z.ltb_lt in E. cbn [snd wf]. apply wf_table_spec. cbn [rows seq].
    split; [lia |].
    apply (rows_ok_snoc 0 (seq t)); auto; try lia.
    unfold status01. cbn. destruct (create_status c); auto.
  - rewrite app_GET_tasks_db. exact Hwf.
  - rewrite app_GET_task_db. exact Hwf.
  - rewrite app_PUT_some. destruct (in_int64 j); [| exact Hwf].
    destruct (find_row j t) as [r0 |]; [| exact Hwf].
    cbn [snd wf]. apply wf_table_spec. cbn [rows seq]. split; [lia |].
    apply rows_ok_map; [intros; apply set_row_id | | exact Hok].
    intros r Hr. unfold set_row, status01.
    destruct (row_id r =? j); [| exact Hr].
    cbn. destruct (merge _ _); auto.
  - rewrite app_DELETE_some. destruct (in_int64 j); [| exact Hwf].
    destruct (existsb _ (rows t)); [| exact Hwf].
    cbn [snd wf]. apply wf_table_spec. cbn [rows seq]. split; [lia |].
    apply rows_ok_filter. exact Hok.
Qed.

Lemma serve_wf (reqs : list Request) (db : Database) :
  wf db = true -> wf (snd (serve reqs db)) = true.
Proof.
  revert db. induction reqs as [| req reqs IH]; intros db Hwf; [exact Hwf |].
  rewrite serve_cons. cbn [snd]. apply IH. apply app_wf. exact Hwf.
Qed.

(** Both [init_db] produce a well-formed table from one. *)
Lemma insert_wf (n d : option string) (s : option Z) (db : Database) :
  (forall z, s = Some z -> z = 0 \/ z = 1) ->
  wf db = true -> wf (snd (insert n d s db)) = true.
Proof.
  intros Hs Hwf. destruct db as [t |]; [| reflexivity].
  unfold insert. destruct (INT64_MAX <=? top t) eqn:E; [exact Hwf |].
  destruct n as [n |], d as [d |], s as [z |]; try exact Hwf.
  apply Z.leb_gt in E. simpl in Hwf. pose proof (wf_top _ Hwf) as Htop.
  apply wf_table_spec in Hwf as [Hseq Hok].
  cbn [snd wf]. apply wf_table_spec. cbn [rows seq]. split; [lia |].
  apply (rows_ok_snoc 0 (seq t)); auto; try lia.
  apply Hs. reflexivity.
Qed.

Lemma insert_each_wf (params : list (string * string * bool)) (db : Database) :
  wf db = true ->
  wf (snd (insert_each (map BackendDb.as_params params) db)) = true.
Proof.
  revert db. induction params as [| [[n d] s] params IH]; intros db Hwf;
    [exact Hwf |].
  cbn [map BackendDb.as_params insert_each]. unfold bind.
  pose proof (insert_wf (Some n) (Some d) (Some (Z.b2z s)) db) as Hins.
  destruct (insert _ _ _ db) as [[i | e] db1]; cbn [snd] in *.
  - apply IH, Hins; [| exact Hwf]. intros z [= <-]. destruct s; auto.
  - apply Hins; [| exact Hwf]. intros z [= <-]. destruct s; auto.
Qed.

Lemma backend_init_db_wf (db : Database) :
  wf db = true -> wf (snd (BackendDb.init_db db)) = true.
Proof.
  intros Hwf.
  assert (Hwf1 : wf (snd (create_table_if_not_exists db)) = true).
  { destruct db; [exact Hwf | reflexivity]. }
  unfold BackendDb.init_db, bind.
  destruct (create_table_if_not_exists db) as [[[] | e] db1] eqn:E1;
    cbn [snd] in *; [| exact Hwf1].
  destruct db1 as [t1 |]; [| destruct db; discriminate].
  unfold select_count.
  destruct (Z.of_nat (List.length (rows t1)) =? 0); [| exact Hwf1].
  unfold executemany.
  pose proof (insert_each_wf BackendDb.default_tasks (Some t1) Hwf1) as H.
  destruct (insert_each _ (Some t1)) as [[u | e] db2]; [exact H | exact Hwf1].
Qed.

Lemma root_init_db_wf (db : Database) :
  wf db = true -> wf (snd (Db.init_db db)) = true.
Proof. intros Hwf. destruct db; [exact Hwf | reflexivity]. Qed.

(** ** C7: the ids handed out *)

Lemma app_high_water (req : Request) (db : Database) :
  wf db = true -> high_water db <= high_water (snd (app req db)).
Proof.
  intros Hwf. destruct db as [t |]; [| rewrite app_no_table; reflexivity].
  simpl in Hwf. destruct req as [| c | | j | j u | j].
  - reflexivity.
  - rewrite (app_POST_wf _ _ Hwf). destruct (seq t <? INT64_MAX); simpl; lia.
  - rewrite app_GET_tasks_db. reflexivity.
  - rewrite app_GET_task_db. reflexivity.
  - rewrite app_PUT_some. destruct (in_int64 j); [| reflexivity].
    destruct (find_row j t); reflexivity.
  - rewrite app_DELETE_some. destruct (in_int64 j); [| reflexivity].
    destruct (existsb _ (rows t)); reflexivity.
Qed.

Lemma app_created (req : Request) (db : Database) (i : Z) :
  wf db = true -> created_id (req, fst (app req db)) = Some i ->
  high_water db < i /\ high_water (snd (app req db)) = i.
Proof.
  intros Hwf. destruct req as [| c | | j | j u | j]; try discriminate.
  destruct db as [t |]; [| intros H; cbn in H; discriminate H].
  simpl in Hwf. rewrite (app_POST_wf _ _ Hwf).
  destruct (seq t <? INT64_MAX); [| intros H; cbn in H; discriminate H].
  cbn. intros [= <-]. lia.
Qed.

Lemma created_ids_above (reqs : list Request) (db : Database) :
  wf db = true ->
  StronglySorted Z.lt (created_ids (fst (serve reqs db)))
  /\ Forall (fun i => high_water db < i) (created_ids (fst (serve reqs db))).
Proof.
  revert db. induction reqs as [| req reqs IH]; intros db Hwf.
  - split; constructor.
  - rewrite serve_cons. cbn [fst created_ids].
    destruct (IH _ (app_wf req db Hwf)) as [Hsorted Habove].
    pose proof (app_high_water req db Hwf) as Hmono.
    destruct (created_id (req, fst (app req db))) as [i |] eqn:Hid.
    + destruct (app_created _ _ _ Hwf Hid) as [Hlt Heq].
      rewrite Heq in Habove. split.
      * constructor; assumption.
      * constructor; [exact Hlt |].
        eapply Forall_impl; [| exact Habove]. cbv beta. intros; lia.
    + split; [exact Hsorted |].
      eapply Forall_impl; [| exact Habove]. cbv beta. intros; lia.
Qed.

Lemma sorted_lt_NoDup (l : list Z) : StronglySorted Z.lt l -> NoDup l.
Proof.
  induction 1 as [| a l Hs IH Hall]; constructor; [| exact IH].
  intros Hin. rewrite Forall_forall in Hall. specialize (Hall _ Hin). lia.
Qed.

Lemma wf_stored_below (j : Z) (db : Database) :
  wf db = true -> stored j db = true -> 0 < j <= high_water db.
Proof.
  intros Hwf Hst. destruct db as [t |]; [| discriminate].
  simpl in Hwf. apply wf_table_spec in Hwf as [_ Hok].
  apply stored_find in Hst as (r & Hfind).
  apply find_some in Hfind as [Hin Heq]. apply Z.eqb_eq in Heq.
  apply (rows_ok_In _ _ _ _ Hok) in Hin. simpl. lia.
Qed.

(** C7. In every session of requests (creates, deletes and any others, in
    any order) against a well-formed database, the ids returned by the
    successful creates are strictly increasing in the order they were
    returned, hence pairwise distinct and never handed out again whatever
    was deleted in between; each is above the [AUTOINCREMENT] counter the
    session began with, which no id assigned earlier exceeds, and so above
    every id stored when the session began. *)
Theorem created_ids_increase (reqs : list Request) (db : Database) :
  wf db = true ->
  StronglySorted Z.lt (created_ids (fst (serve reqs db)))
  /\ NoDup (created_ids (fst (serve reqs db)))
  /\ Forall (fun i => high_water db < i) (created_ids (fst (serve reqs db)))
  /\ (forall i j : Z,
        In i (created_ids (fst (serve reqs db))) -> stored j db = true -> j < i).
Proof.
  intros Hwf. destruct (created_ids_above reqs db Hwf) as [Hsorted Habove].
  split; [exact Hsorted |]. split; [apply sorted_lt_NoDup; exact Hsorted |].
  split; [exact Habove |].
  intros i j Hi Hj. rewrite Forall_forall in Habove. specialize (Habove _ Hi).
  pose proof (wf_stored_below _ _ Hwf Hj). lia.
Qed.

Example session_created_ids :
  created_ids (fst (serve session (Some seeded))) = [4; 5; 6].
Proof. reflexivity. Qed.

Lemma created_ids_increase_witness :
  wf (Some seeded) = true
  /\ StronglySorted Z.lt (created_ids (fst (serve session (Some seeded))))
  /\ NoDup (created_ids (fst (serve session (Some seeded))))
  /\ Forall (fun i => high_water (Some seeded) < i)
            (created_ids (fst (serve session (Some seeded))))
  /\ (forall i j : Z,
        In i (created_ids (fst (serve session (Some seeded)))) ->
        stored j (Some seeded) = true -> j < i).
Proof.
  split; [reflexivity |].
  apply (created_ids_increase session (Some seeded)). reflexivity.
Defined.

(** ** Lists and counts *)

Lemma find_snoc {A} (f : A -> bool) (l : list A) (x : A) :
  find f (l ++ [x])
  = match find f l with
    | Some y => Some y
    | None => if f x then Some x else None
    end.
Proof.
  induction l as [| a l IH]; simpl; [reflexivity |].
  destruct (f a); [reflexivity | exact IH].
Qed.

Lemma find_filter_other (i j : Z) (rs : list Row) :
  i <> j ->
  find (fun r => row_id r =? i) (filter (fun r => negb (row_id r =? j)) rs)
  = find (fun r => row_id r =? i) rs.
Proof.
  intros Hne. induction rs as [| r rs IH]; simpl; [reflexivity |].
  destruct (row_id r =? j) eqn:Ej; simpl.
  - apply Z.eqb_eq in Ej.
    destruct (row_id r =? i) eqn:Ei; [apply Z.eqb_eq in Ei; lia | exact IH].
  - destruct (row_id r =? i); [reflexivity | exact IH].
Qed.

(** In a well-formed table DELETE removes exactly one row when it removes
    any. *)
Lemma rows_ok_one_match (lo hi j : Z) (rs : list Row) :
  rows_ok lo hi rs = true ->
  existsb (fun r => row_id r =? j) rs = true ->
  List.length (filter (fun r => row_id r =? j) rs) = 1%nat.
Proof.
  revert lo. induction rs as [| r rs IH]; intros lo Hok Hex; [discriminate |].
  apply rows_ok_cons in Hok as (Hr & Hs & Hok). simpl in *.
  destruct (row_id r =? j) eqn:E.
  - apply Z.eqb_eq in E. simpl. f_equal.
    assert (Hnone : find (fun r => row_id r =? j) rs = None).
    { apply (rows_ok_find_first _ _ _ _ Hok). lia. }
    destruct (filter_none _ _ Hnone) as [-> _]. reflexivity.
  - apply (IH _ Hok Hex).
Qed.

Lemma count_created_cons (ev : Request * Response)
  (trace : list (Request * Response)) :
  count_created (ev :: trace) = Z.b2z (is_created ev) + count_created trace.
Proof.
  unfold count_created. cbn [filter].
  destruct (is_created ev); cbn [List.length Z.b2z]; lia.
Qed.

Lemma count_deleted_cons (ev : Request * Response)
  (trace : list (Request * Response)) :
  count_deleted (ev :: trace) = Z.b2z (is_deleted ev) + count_deleted trace.
Proof.
  unfold count_deleted. cbn [filter].
  destruct (is_deleted ev); cbn [List.length Z.b2z]; lia.
Qed.

Lemma get_all_tasks_eq (t : Table) :
  Core.get_all_tasks (Some t) = (Return (map Core.task_of_row (rows t)), Some t).
Proof. reflexivity. Qed.

(** In a well-formed table the listed Tasks are the Tasks found by id. *)
Lemma listed_iff_lookup (t : Table) (task : Task) :
  wf_table t = true ->
  In task (map Core.task_of_row (rows t)) <-> lookup (id task) t = Some task.
Proof.
  intros Hwf. apply wf_table_spec in Hwf as [_ Hok]. unfold lookup. split.
  - intros Hin. apply in_map_iff in Hin as (r & <- & Hin).
    cbn [Core.task_of_row id].
    destruct (find_row (row_id r) t) as [r0 |] eqn:Hfind.
    + rewrite (rows_ok_unique _ _ _ _ _ _ Hok Hfind Hin eq_refl). reflexivity.
    + unfold find_row in Hfind. pose proof (find_none _ _ Hfind _ Hin) as H.
      cbv beta in H. rewrite Z.eqb_refl in H. discriminate.
  - destruct (find_row (id task) t) as [r0 |] eqn:Hfind; [| discriminate].
    cbn [option_map]. intros [= <-]. apply in_map.
    apply find_some in Hfind. tauto.
Qed.

Example session_list :
  Core.get_all_tasks (snd (serve session (Some (mkTable [] 3))))
  = (Return [mkTask 5 "b2" "second" true; mkTask 6 "c" "third" false],
     snd (serve session (Some (mkTable [] 3)))).
Proof. reflexivity. Qed.

(** ** C9: names *)

Lemma app_names_nonempty (req : Request) (db : Database) :
  names_nonempty db = true ->
  match supplied_name req with Some s => nonempty s | None => true end = true ->
  names_nonempty (snd (app req db)) = true.
Proof.
  intros Hdb Hreq. destruct db as [t |]; [| rewrite app_no_table; reflexivity].
  simpl in Hdb. destruct req as [| c | | j | j u | j].
  - exact Hdb.
  - rewrite app_POST_tasks. unfold Core.create_task, bind, insert.
    destruct (INT64_MAX <=? top t); [exact Hdb |].
    cbn [snd ret names_nonempty rows]. rewrite forallb_app, Hdb.
    cbn in *. rewrite Hreq. reflexivity.
  - rewrite app_GET_tasks_db. exact Hdb.
  - rewrite app_GET_task_db. exact Hdb.
  - rewrite app_PUT_some. destruct (in_int64 j); [| exact Hdb].
    destruct (find_row j t) as [r0 |] eqn:Hfind; [| exact Hdb].
    cbn [snd names_nonempty rows]. rewrite forallb_forall in *.
    intros r' Hin. apply in_map_iff in Hin as (r & <- & Hin).
    unfold set_row. destruct (row_id r =? j); [| apply Hdb; exact Hin].
    cbn [row_name]. cbn [supplied_name] in Hreq.
    destruct (update_name u) as [v |]; [exact Hreq |].
    cbn [merge]. apply Hdb. apply find_some in Hfind. tauto.
  - rewrite app_DELETE_some. destruct (in_int64 j); [| exact Hdb].
    destruct (existsb _ (rows t)); [| exact Hdb].
    cbn [snd names_nonempty rows]. rewrite forallb_forall in *.
    intros r Hin. apply filter_In in Hin as [Hin _]. apply Hdb. exact Hin.
Qed.

Lemma insert_each_names_nonempty (params : list (string * string * bool))
  (db : Database) :
  forallb (fun p => nonempty (fst (fst p))) params = true ->
  names_nonempty db = true ->
  names_nonempty (snd (insert_each (map BackendDb.as_params params) db)) = true.
Proof.
  revert db. induction params as [| [[n d] s] params IH]; intros db Hp Hdb;
    [exact Hdb |].
  cbn [forallb fst] in Hp. apply andb_true_iff in Hp as [Hn Hp].
  cbn [map BackendDb.as_params insert_each]. unfold bind, insert.
  destruct db as [t |]; [| exact Hdb].
  destruct (INT64_MAX <=? top t); [exact Hdb |].
  apply IH; [exact Hp |]. cbn [names_nonempty rows] in *.
  rewrite forallb_app, Hdb. cbn. rewrite Hn. reflexivity.
Qed.

Lemma startup_names_nonempty (db : Database) :
  names_nonempty db = true -> names_nonempty (snd (startup db)) = true.
Proof.
  intros Hdb. unfold startup, BackendDb.init_db, bind.
  assert (H1 : names_nonempty (snd (create_table_if_not_exists db)) = true).
  { destruct db; [exact Hdb | reflexivity]. }
  destruct (create_table_if_not_exists db) as [[[] | e] db1];
    cbn [snd] in *; [| exact H1].
  unfold select_count. destruct db1 as [t1 |]; [| exact H1].
  destruct (Z.of_nat (List.length (rows t1)) =? 0); [| exact H1].
  unfold executemany.
  pose proof (insert_each_names_nonempty BackendDb.default_tasks (Some t1)
                eq_refl H1) as H.
  destruct (insert_each _ (Some t1)) as [[u | e] db2]; [exact H | exact H1].
Qed.

(** C9, as the code has it.  Neither startup nor any request puts an empty
    name into the table unless a client supplies one: when the stored names
    are non-empty and every name carried by the create and update requests
    of a session is non-empty, the names stored after startup and after the
    session are non-empty. *)
Theorem names_stay_nonempty (reqs : list Request) (db : Database) :
  names_nonempty db = true -> names_supplied_nonempty reqs = true ->
  names_nonempty (snd (startup db)) = true
  /\ names_nonempty (snd (serve reqs db)) = true.
Proof.
  intros Hdb Hreqs. split; [apply startup_names_nonempty; exact Hdb |].
  revert db Hdb. induction reqs as [| req reqs IH]; intros db Hdb;
    [exact Hdb |].
  cbn [names_supplied_nonempty forallb] in Hreqs.
  apply andb_true_iff in Hreqs as [Hreq Hreqs].
  rewrite serve_cons. cbn [snd]. apply (IH Hreqs).
  apply app_names_nonempty; assumption.
Qed.

Example session_names :
  fst (Core.get_all_tasks (snd (serve session (Some seeded))))
  = Return [ mkTask 1 "TASK-1" "First task to complete" false;
             mkTask 3 "TASK-3" "Third task to complete" false;
             mkTask 5 "b2" "second" true;
             mkTask 6 "c" "third" false ]
  /\ count_created (fst (serve session (Some seeded))) = 3.
Proof. split; reflexivity. Qed.

Lemma names_stay_nonempty_witness :
  (names_nonempty (Some seeded) = true
   /\ names_supplied_nonempty session = true)
  /\ names_nonempty (snd (startup (Some seeded))) = true
  /\ names_nonempty (snd (serve session (Some seeded))) = true.
Proof.
  split; [split; reflexivity |].
  apply (names_stay_nonempty session (Some seeded)); reflexivity.
Defined.

(** C9 as stated fails: right after startup, a [POST /tasks] whose name is
    the empty string is answered 200 and the Task is stored with that name;
    so is a [PUT] that supplies one. *)
Lemma empty_name_is_stored :
  let db := snd (startup None) in
  let post := POST_tasks (mkTaskCreate "" "no name" false) in
  let put := PUT_task 1 (mkTaskUpdate (Some ""%string) None None) in
  fst (app post db) = mkResponse 200 (JTask (mkTask 4 "" "no name" false))
  /\ fst (Core.get_task_by_id 4 (snd (app post db)))
     = Return (Some (mkTask 4 "" "no name" false))
  /\ names_nonempty (snd (app post db)) = false
  /\ fst (app put db)
     = mkResponse 200 (JTask (mkTask 1 "" "First task to complete" false))
  /\ names_nonempty (snd (app put db)) = false.
Proof.
  cbv zeta. repeat split.
Qed.

(** ** The databases the program reaches *)

(** Starting from a database file without the table, startup followed by any
    session leaves a well-formed table: the hypotheses above hold of every
    state the running program is in. *)
Lemma reachable_wf (reqs : list Request) :
  wf (snd (serve reqs (snd (startup None)))) = true.
Proof. apply serve_wf. apply backend_init_db_wf. reflexivity. Qed.

Lemma startup_fresh : startup None = (Return tt, Some seeded).
Proof. reflexivity. Qed.

(** ** The scenarios the specification lists *)

Example scenario_root :
  fst (app GET_root None) = mkResponse 200 (JMessage "Task Manager API").
Proof. reflexivity. Qed.

Example scenario_post :
  fst (app (POST_tasks (mkTaskCreate "TASK-1" "First task to complete" false))
           (Some (mkTable [] 0)))
  = mkResponse 200 (JTask (mkTask 1 "TASK-1" "First task to complete" false)).
Proof. reflexivity. Qed.

Example scenario_get_999 :
  fst (app (GET_task 999) (Some seeded)) = task_not_found
  /\ fst (app (GET_task 999) (Some (mkTable [] 0))) = task_not_found.
Proof. split; reflexivity. Qed.

Example scenario_put_status :
  fst (app (PUT_task 1 (mkTaskUpdate None None (Some true))) (Some seeded))
  = mkResponse 200 (JTask (mkTask 1 "TASK-1" "First task to complete" true)).
Proof. reflexivity. Qed.

Example scenario_startup_list :
  fst (app GET_tasks (snd (startup None)))
  = mkResponse 200 (JTasks (seed_tasks 0))
  /\ startup (snd (startup None)) = (Return tt, snd (startup None)).
Proof. split; reflexivity. Qed.

(** Before startup there is no table, and every route that reads it is a
    500. *)
Example scenario_no_table :
  fst (app GET_tasks None) = server_error
  /\ fst (app (GET_task 1) None) = server_error.
Proof. split; reflexivity. Qed.

(** * Further properties of the code *)

(** ** The listing *)

Lemma rows_ok_sorted (lo hi : Z) (rs : list Row) :
  rows_ok lo hi rs = true ->
  StronglySorted Z.lt (map row_id rs)
  /\ Forall (fun r => lo < row_id r <= hi) rs.
Proof.
  revert lo. induction rs as [| r rs IH]; intros lo Hok.
  - split; constructor.
  - pose proof Hok as Hok0.
    apply rows_ok_cons in Hok as (Hr & _ & Hok).
    destruct (IH _ Hok) as [Hsorted Hall]. split.
    + cbn [map]. constructor; [exact Hsorted |].
      apply Forall_forall. intros x Hx. apply in_map_iff in Hx as (r' & <- & Hr').
      rewrite Forall_forall in Hall. specialize (Hall _ Hr'). lia.
    + constructor; [exact Hr |].
      eapply Forall_impl; [| exact Hall]. cbv beta. intros; lia.
Qed.

Lemma map_id_task_of_row (rs : list Row) :
  map id (map Core.task_of_row rs) = map row_id rs.
Proof. rewrite map_map. reflexivity. Qed.

(** X1. On a well-formed table [get_all_tasks] returns one Task per stored
    row, no two with the same id, and every id lies between 1 and the
    largest 64-bit integer. *)
Theorem list_ids_distinct (t : Table) :
  wf_table t = true ->
  exists l : list Task,
    Core.get_all_tasks (Some t) = (Return l, Some t)
    /\ List.length l = List.length (rows t)
    /\ NoDup (map id l)
    /\ Forall (fun task => 1 <= id task <= INT64_MAX) l.
Proof.
  intros Hwf. apply wf_table_spec in Hwf as [Hseq Hok].
  destruct (rows_ok_sorted _ _ _ Hok) as [Hsorted Hall].
  exists (map Core.task_of_row (rows t)). rewrite map_id_task_of_row.
  split; [reflexivity |]. split; [apply length_map |].
  split; [apply sorted_lt_NoDup; exact Hsorted |].
  apply Forall_forall. intros task Hin.
  apply in_map_iff in Hin as (r & <- & Hr).
  rewrite Forall_forall in Hall. specialize (Hall _ Hr). cbn [Core.task_of_row id].
  lia.
Qed.

Lemma list_ids_distinct_witness :
  wf_table one_done = true
  /\ exists l : list Task,
       Core.get_all_tasks (Some one_done) = (Return l, Some one_done)
       /\ List.length l = List.length (rows one_done)
       /\ NoDup (map id l)
       /\ Forall (fun task => 1 <= id task <= INT64_MAX) l.
Proof.
  split; [reflexivity |]. apply (list_ids_distinct one_done). reflexivity.
Defined.

(** X2. On a well-formed table the listing and the lookup agree: a Task is
    in the list [get_all_tasks] returns exactly when [get_task_by_id] on its
    id returns that Task. *)
Theorem list_agrees_with_get (t : Table) (task : Task) :
  wf_table t = true ->
  exists l : list Task,
    Core.get_all_tasks (Some t) = (Return l, Some t)
    /\ (In task l
        <-> Core.get_task_by_id (id task) (Some t)
            = (Return (Some task), Some t)).
Proof.
  intros Hwf. exists (map Core.task_of_row (rows t)).
  split; [reflexivity |]. rewrite (listed_iff_lookup _ _ Hwf). split.
  - intros Hl. assert (Hin : in_int64 (id task) = true).
    { apply (wf_stored_in_int64 _ t Hwf). apply stored_find.
      unfold lookup in Hl. fold (find_row (id task) t).
      destruct (find_row (id task) t) as [r |]; [eauto | discriminate]. }
    rewrite (get_task_by_id_eq _ _ Hin). fold (lookup (id task) t).
    rewrite Hl. reflexivity.
  - intros Hget. destruct (in_int64 (id task)) eqn:Hin.
    + rewrite (get_task_by_id_eq _ _ Hin) in Hget.
      fold (lookup (id task) t) in Hget. congruence.
    + rewrite (get_task_by_id_overflow _ _ Hin) in Hget. discriminate.
Qed.

Lemma list_agrees_with_get_witness :
  wf_table one_done = true
  /\ exists l : list Task,
       Core.get_all_tasks (Some one_done) = (Return l, Some one_done)
       /\ (In (mkTask 4 "TASK-4" "" false) l
           <-> Core.get_task_by_id (id (mkTask 4 "TASK-4" "" false))
                 (Some one_done)
               = (Return (Some (mkTask 4 "TASK-4" "" false)), Some one_done)).
Proof.
  split; [reflexivity |].
  apply (list_agrees_with_get one_done (mkTask 4 "TASK-4" "" false)).
  reflexivity.
Defined.

(** ** What a request can do to the table *)

Lemma stored_lookup (i : Z) (t : Table) :
  stored i (Some t)
  = match find_row i t with Some _ => true | None => false end.
Proof.
  destruct (find_row i t) as [r |] eqn:Hfind.
  - apply stored_find. eauto.
  - apply not_stored_find. exact Hfind.
Qed.

Lemma app_POST_some (c : TaskCreate) (t : Table) :
  app (POST_tasks c) (Some t)
  = if INT64_MAX <=? top t
    then (server_error, Some t)
    else (mkResponse 200
            (JTask (mkTask (top t + 1) (create_name c) (create_desc c)
                           (create_status c))),
          Some (mkTable
                  (rows t ++ [mkRow (top t + 1) (create_name c) (create_desc c)
                                    (Z.b2z (create_status c))])
                  (top t + 1))).
Proof.
  rewrite app_POST_tasks. unfold Core.create_task, bind, insert.
  destruct (INT64_MAX <=? top t); reflexivity.
Qed.

(** X3. A request changes the database only when it is a create, an update
    or a delete and is answered 200: reads, 404s and 500s leave it exactly
    as it was. *)
Theorem only_success_writes (req : Request) (db : Database) :
  snd (app req db) = db
  \/ (is_write req = true /\ status_code (fst (app req db)) = 200).
Proof.
  destruct db as [t |]; [| left; apply app_no_table].
  destruct req as [| c | | j | j u | j].
  - left. reflexivity.
  - rewrite app_POST_some. destruct (INT64_MAX <=? top t); [left | right];
      split; reflexivity.
  - left. apply app_GET_tasks_db.
  - left. apply app_GET_task_db.
  - rewrite app_PUT_some. destruct (in_int64 j); [| left; reflexivity].
    destruct (find_row j t); [right; split; reflexivity | left; reflexivity].
  - rewrite app_DELETE_some. destruct (in_int64 j); [| left; reflexivity].
    destruct (existsb _ (rows t)); [right; split; reflexivity | left; reflexivity].
Qed.


(** ** Repeating an operation *)

Lemma set_row_twice (i : Z) (n d : string) (s : Z) (r : Row) :
  set_row i n d s (set_row i n d s r) = set_row i n d s r.
Proof.
  unfold set_row. destruct (row_id r =? i) eqn:E; [| rewrite E; reflexivity].
  cbn [row_id]. rewrite E. reflexivity.
Qed.

(** X5. [update_task] is idempotent: run a second time with the same
    arguments, on the database the first run left, it returns what the first
    run returned and leaves that database as it is.  This holds on every
    database and for every id, stored or not. *)
Theorem update_task_twice (i : Z) (n d : option string) (s : option bool)
  (db : Database) :
  Core.update_task i n d s (snd (Core.update_task i n d s db))
  = Core.update_task i n d s db.
Proof.
  destruct db as [t |]; [| reflexivity].
  destruct (in_int64 i) eqn:Hin.
  - destruct (find_row i t) as [r0 |] eqn:Hfind.
    + pose proof (update_task_eq i n d s t r0 Hin Hfind) as H1.
      cbv zeta in H1. rewrite H1. cbn [snd].
      set (n' := merge n (row_name r0)) in *.
      set (d' := merge d (row_desc r0)) in *.
      set (s' := merge s (Core.py_bool (row_status r0))) in *.
      set (t1 := mkTable _ _).
      assert (Hfind1 : find_row i t1 = Some (mkRow i n' d' (Z.b2z s'))).
      { unfold find_row, t1. cbn [rows].
        rewrite find_map_same_id by (intros; apply set_row_id).
        fold (find_row i t). rewrite Hfind. cbn [option_map]. unfold set_row.
        rewrite (find_row_id _ _ _ Hfind), Z.eqb_refl. reflexivity. }
      pose proof (update_task_eq i n d s t1 _ Hin Hfind1) as H2.
      cbv zeta in H2. cbn [row_name row_desc row_status] in H2.
      rewrite py_bool_b2z in H2.
      replace (merge n n') with n' in H2 by (subst n'; destruct n; reflexivity).
      replace (merge d d') with d' in H2 by (subst d'; destruct d; reflexivity).
      replace (merge s s') with s' in H2 by (subst s'; destruct s; reflexivity).
      rewrite H2. unfold t1. cbn [rows seq]. rewrite map_map.
      f_equal. f_equal. f_equal. apply map_ext. intros r. apply set_row_twice.
    + rewrite (update_task_absent _ _ _ _ _ Hin Hfind). cbn [snd].
      apply (update_task_absent _ _ _ _ _ Hin Hfind).
  - assert (H : Core.update_task i n d s (Some t) = (Raise int_too_large, Some t)).
    { unfold Core.update_task. unfold bind at 1.
      rewrite (get_task_by_id_overflow _ _ Hin). reflexivity. }
    rewrite H. cbn [snd]. exact H.
Qed.

(** ** What an operation leaves alone *)

Lemma get_task_by_id_fst (j : Z) (t : Table) :
  fst (Core.get_task_by_id j (Some t))
  = if in_int64 j then Return (lookup j t) else Raise int_too_large.
Proof.
  destruct (in_int64 j) eqn:Hin.
  - rewrite (get_task_by_id_eq _ _ Hin). reflexivity.
  - rewrite (get_task_by_id_overflow _ _ Hin). reflexivity.
Qed.

(** X6. A successful [create_task] adds the returned Task, and nothing
    else, to what [get_all_tasks] returns, and leaves every other id as it
    was: for every id but the new one [get_task_by_id] answers as before. *)
Theorem create_task_frame (n d : string) (s : bool) (t : Table) :
  top t < INT64_MAX ->
  exists (task : Task) (db' : Database) (l l' : list Task),
    Core.create_task n d s (Some t) = (Return task, db')
    /\ Core.get_all_tasks (Some t) = (Return l, Some t)
    /\ Core.get_all_tasks db' = (Return l', db')
    /\ List.length l' = S (List.length l)
    /\ (forall x : Task, In x l' <-> In x l \/ x = task)
    /\ (forall j : Z,
          j <> id task ->
          fst (Core.get_task_by_id j db')
          = fst (Core.get_task_by_id j (Some t))).
Proof.
  intros Hroom.
  exists (mkTask (top t + 1) n d s). eexists.
  exists (map Core.task_of_row (rows t)).
  exists (map Core.task_of_row (rows t) ++ [mkTask (top t + 1) n d s]).
  split; [apply create_task_eq; exact Hroom |].
  split; [reflexivity |]. split; [| split; [| split]].
  - unfold Core.get_all_tasks, bind, select_all, ret. cbn [rows].
    rewrite map_app. cbn [map]. unfold Core.task_of_row at 2. cbn.
    rewrite py_bool_b2z. reflexivity.
  - rewrite length_app. cbn. lia.
  - intros x. rewrite in_app_iff. cbn [In]. intuition congruence.
  - intros j Hj. cbn [id] in Hj. rewrite !get_task_by_id_fst.
    destruct (in_int64 j); [| reflexivity].
    unfold lookup, find_row. cbn [rows]. rewrite find_snoc. cbn [row_id].
    destruct (find _ (rows t)); [reflexivity |].
    destruct (top t + 1 =? j) eqn:E; [apply Z.eqb_eq in E; lia | reflexivity].
Qed.

Lemma create_task_frame_witness :
  top one_done < INT64_MAX
  /\ exists (task : Task) (db' : Database) (l l' : list Task),
       Core.create_task "n" "d" true (Some one_done) = (Return task, db')
       /\ Core.get_all_tasks (Some one_done) = (Return l, Some one_done)
       /\ Core.get_all_tasks db' = (Return l', db')
       /\ List.length l' = S (List.length l)
       /\ (forall x : Task, In x l' <-> In x l \/ x = task)
       /\ (forall j : Z,
             j <> id task ->
             fst (Core.get_task_by_id j db')
             = fst (Core.get_task_by_id j (Some one_done))).
Proof.
  split; [reflexivity |].
  apply (create_task_frame "n" "d" true one_done). reflexivity.
Defined.

Lemma filter_task_of_row (i : Z) (rs : list Row) :
  map Core.task_of_row (filter (fun r => negb (row_id r =? i)) rs)
  = filter (fun task => negb (id task =? i)) (map Core.task_of_row rs).
Proof.
  induction rs as [| r rs IH]; [reflexivity |].
  cbn [filter map Core.task_of_row id].
  destruct (row_id r =? i); cbn [negb map]; [exact IH | f_equal; exact IH].
Qed.

(** X7. On a well-formed table, [delete_task] of a stored id returns
    [True], removes the Task with that id and no other from what
    [get_all_tasks] returns (which gets exactly one shorter), leaves the
    [AUTOINCREMENT] counter where it was, and leaves every other id as it
    was. *)
Theorem delete_task_frame (i : Z) (t : Table) :
  wf_table t = true -> stored i (Some t) = true ->
  exists (db' : Database) (l l' : list Task),
    Core.delete_task i (Some t) = (Return true, db')
    /\ Core.get_all_tasks (Some t) = (Return l, Some t)
    /\ Core.get_all_tasks db' = (Return l', db')
    /\ List.length l = S (List.length l')
    /\ (forall x : Task, In x l' <-> In x l /\ id x <> i)
    /\ high_water db' = seq t
    /\ (forall j : Z,
          j <> i ->
          fst (Core.get_task_by_id j db')
          = fst (Core.get_task_by_id j (Some t))).
Proof.
  intros Hwf Hst. pose proof (wf_stored_in_int64 _ _ Hwf Hst) as Hin.
  apply wf_table_spec in Hwf as [_ Hok]. cbn [stored] in Hst.
  eexists. exists (map Core.task_of_row (rows t)).
  exists (filter (fun task => negb (id task =? i))
                 (map Core.task_of_row (rows t))).
  rewrite (delete_task_eq _ _ Hin), rowcount_positive, Hst.
  split; [reflexivity |]. split; [reflexivity |].
  split; [| split; [| split; [| split]]].
  - unfold Core.get_all_tasks, bind, select_all, ret. cbn [rows].
    rewrite filter_task_of_row. reflexivity.
  - rewrite <- filter_task_of_row, !length_map.
    pose proof (filter_length (fun r => row_id r =? i) (rows t)) as Hlen.
    rewrite (rows_ok_one_match _ _ _ _ Hok Hst) in Hlen. lia.
  - intros x. rewrite filter_In, negb_true_iff, Z.eqb_neq. reflexivity.
  - reflexivity.
  - intros j Hj. rewrite !get_task_by_id_fst.
    destruct (in_int64 j); [| reflexivity].
    unfold lookup, find_row. cbn [rows].
    rewrite find_filter_other by exact Hj. reflexivity.
Qed.

Lemma delete_task_frame_witness :
  (wf_table seeded = true /\ stored 2 (Some seeded) = true)
  /\ exists (db' : Database) (l l' : list Task),
       Core.delete_task 2 (Some seeded) = (Return true, db')
       /\ Core.get_all_tasks (Some seeded) = (Return l, Some seeded)
       /\ Core.get_all_tasks db' = (Return l', db')
       /\ List.length l = S (List.length l')
       /\ (forall x : Task, In x l' <-> In x l /\ id x <> 2)
       /\ high_water db' = seq seeded
       /\ (forall j : Z,
             j <> 2 ->
             fst (Core.get_task_by_id j db')
             = fst (Core.get_task_by_id j (Some seeded))).
Proof.
  split; [split; reflexivity |].
  apply (delete_task_frame 2 seeded); reflexivity.
Defined.

(** X8. [update_task] touches one id only, on every database and whatever
    it returns: for every other id [get_task_by_id] answers as before, the
    ids [get_all_tasks] lists are the same, and the [AUTOINCREMENT] counter
    is unchanged. *)
Theorem update_task_frame (i : Z) (n d : option string) (s : option bool)
  (db : Database) :
  (forall j : Z,
     j <> i ->
     fst (Core.get_task_by_id j (snd (Core.update_task i n d s db)))
     = fst (Core.get_task_by_id j db))
  /\ (forall l : list Task,
        fst (Core.get_all_tasks db) = Return l ->
        exists l' : list Task,
          fst (Core.get_all_tasks (snd (Core.update_task i n d s db)))
          = Return l'
          /\ map id l' = map id l)
  /\ high_water (snd (Core.update_task i n d s db)) = high_water db.
Proof.
  assert (Hsame : snd (Core.update_task i n d s db) = db ->
    (forall j : Z, j <> i ->
       fst (Core.get_task_by_id j (snd (Core.update_task i n d s db)))
       = fst (Core.get_task_by_id j db))
    /\ (forall l : list Task, fst (Core.get_all_tasks db) = Return l ->
          exists l' : list Task,
            fst (Core.get_all_tasks (snd (Core.update_task i n d s db)))
            = Return l' /\ map id l' = map id l)
    /\ high_water (snd (Core.update_task i n d s db)) = high_water db).
  { intros ->. repeat split; eauto. }
  destruct db as [t |]; [| apply Hsame; reflexivity].
  destruct (in_int64 i) eqn:Hin.
  - destruct (find_row i t) as [r0 |] eqn:Hfind.
    + clear Hsame.
      pose proof (update_task_eq i n d s t r0 Hin Hfind) as H. cbv zeta in H.
      rewrite H. cbn [snd]. split; [| split].
      * intros j Hj. rewrite !get_task_by_id_fst.
        destruct (in_int64 j); [| reflexivity].
        unfold lookup, find_row. cbn [rows].
        rewrite find_map_same_id by (intros; apply set_row_id).
        destruct (find _ (rows t)) as [r |] eqn:Hfj; [| reflexivity].
        cbn [option_map]. unfold set_row.
        apply find_some in Hfj as [_ Hfj]. apply Z.eqb_eq in Hfj.
        destruct (row_id r =? i) eqn:E; [apply Z.eqb_eq in E; lia | reflexivity].
      * intros l [= <-]. eexists. split; [reflexivity |].
        cbn [rows]. rewrite !map_id_task_of_row, map_map.
        apply map_ext. intros r. apply set_row_id.
      * reflexivity.
    + apply Hsame. rewrite (update_task_absent _ _ _ _ _ Hin Hfind). reflexivity.
  - apply Hsame. unfold Core.update_task. unfold bind at 1.
    rewrite (get_task_by_id_overflow _ _ Hin). reflexivity.
Qed.

(** ** Startup *)

Lemma insert_full (n d : option string) (s : option Z) (t : Table) :
  INT64_MAX <= top t ->
  insert n d s (Some t) = (Raise database_full, Some t).
Proof.
  intros Hfull. unfold insert.
  destruct (INT64_MAX <=? top t) eqn:E; [reflexivity |].
  apply Z.leb_gt in E. lia.
Qed.

(** Seeding an empty table that has no room for three more rowids fails and
    keeps none of the rows it managed to insert. *)
Lemma backend_init_db_full (t : Table) :
  rows t = [] -> INT64_MAX < top t + 3 ->
  BackendDb.init_db (Some t) = (Raise database_full, Some t).
Proof.
  intros Hempty Hfull. pose proof (top_nonneg t) as Hpos.
  assert (Hmax : max_rowid (rows t) <= top t) by (unfold top; lia).
  unfold BackendDb.init_db, bind, create_table_if_not_exists, select_count.
  rewrite Hempty. cbn [List.length Z.of_nat Z.eqb].
  unfold executemany. cbn [map BackendDb.default_tasks BackendDb.as_params
                             insert_each Z.b2z].
  unfold bind.
  destruct (Z_le_gt_dec INT64_MAX (top t)) as [H0 | H0];
    [rewrite insert_full by exact H0; reflexivity |].
  rewrite insert_eq by lia. set (t1 := mkTable _ _).
  assert (H1 : top t1 = top t + 1).
  { apply top_after_insert; [exact Hmax | reflexivity]. }
  destruct (Z_le_gt_dec INT64_MAX (top t1)) as [H1' | H1'];
    [rewrite insert_full by exact H1'; reflexivity |].
  rewrite insert_eq by lia. rewrite H1. set (t2 := mkTable _ _).
  assert (H2 : top t2 = top t + 1 + 1).
  { apply top_after_insert; [| reflexivity].
    subst t1. cbn [rows]. rewrite max_rowid_app.
    unfold max_rowid at 2. cbn [fold_right row_id]. lia. }
  rewrite insert_full by lia. reflexivity.
Qed.


(** X10. Both [init_db] are idempotent on every database: run again on the
    database the first run left, each returns (or raises) what it did the
    first time and changes nothing more. *)
Theorem init_db_twice (db : Database) :
  BackendDb.init_db (snd (BackendDb.init_db db)) = BackendDb.init_db db
  /\ Db.init_db (snd (Db.init_db db)) = Db.init_db db.
Proof.
  split; [| destruct db; reflexivity].
  destruct db as [t |]; [| reflexivity].
  destruct (rows t) as [| r rs] eqn:Hrows.
  - destruct (Z_le_gt_dec (top t + 3) INT64_MAX) as [Hroom | Hfull].
    + destruct (backend_init_db_empty t Hrows Hroom) as (db' & H & Hlist).
      rewrite H. cbn [snd]. destruct db' as [t' |]; [| discriminate].
      apply backend_init_db_populated.
      rewrite get_all_tasks_eq in Hlist. injection Hlist as Hlist.
      intros Hnil. rewrite Hnil in Hlist. discriminate.
    + assert (H : BackendDb.init_db (Some t) = (Raise database_full, Some t))
        by (apply backend_init_db_full; [assumption | lia]).
      rewrite H. cbn [snd]. exact H.
  - assert (H : BackendDb.init_db (Some t) = (Return tt, Some t))
      by (apply backend_init_db_populated; rewrite Hrows; discriminate).
    rewrite H. cbn [snd]. exact H.
Qed.

(** ** The invariant, and the end of the rowids *)

(** X11. Well-formedness is an invariant of the whole program: from a
    well-formed database (in particular from a file without the table), both
    [init_db] and every session of requests leave a well-formed table, one
    whose ids are positive, strictly increasing and not above the
    [AUTOINCREMENT] counter, whose counter is a 64-bit integer, and whose
    statuses are 0 or 1. *)
Theorem wf_is_invariant (reqs : list Request) (db : Database) :
  wf db = true ->
  wf (snd (BackendDb.init_db db)) = true
  /\ wf (snd (Db.init_db db)) = true
  /\ wf (snd (serve reqs db)) = true
  /\ wf (snd (serve reqs (snd (startup db)))) = true.
Proof.
  intros Hwf. pose proof (backend_init_db_wf db Hwf) as Hinit.
  split; [exact Hinit |]. split; [apply root_init_db_wf; exact Hwf |].
  split; apply serve_wf; assumption.
Qed.

Lemma wf_is_invariant_witness :
  wf None = true
  /\ wf (snd (BackendDb.init_db None)) = true
  /\ wf (snd (Db.init_db None)) = true
  /\ wf (snd (serve session None)) = true
  /\ wf (snd (serve session (snd (startup None)))) = true.
Proof.
  split; [reflexivity |]. apply (wf_is_invariant session None). reflexivity.
Defined.

Lemma app_exhausted (req : Request) (t : Table) :
  wf_table t = true -> seq t = INT64_MAX ->
  exists t' : Table,
    snd (app req (Some t)) = Some t'
    /\ seq t' = INT64_MAX
    /\ is_created (req, fst (app req (Some t))) = false.
Proof.
  intros Hwf Hseq. destruct req as [| c | | j | j u | j].
  - exists t. repeat split; assumption.
  - rewrite (app_POST_wf _ _ Hwf). rewrite Hseq, Z.ltb_irrefl.
    exists t. repeat split; assumption.
  - exists t. rewrite app_GET_tasks_db. repeat split; assumption.
  - exists t. rewrite app_GET_task_db. repeat split; assumption.
  - rewrite app_PUT_some. destruct (in_int64 j);
      [| exists t; repeat split; assumption].
    destruct (find_row j t); [| exists t; repeat split; assumption].
    eexists. split; [reflexivity |]. split; [exact Hseq | reflexivity].
  - rewrite app_DELETE_some. destruct (in_int64 j);
      [| exists t; repeat split; assumption].
    destruct (existsb _ (rows t)); [| exists t; repeat split; assumption].
    eexists. split; [reflexivity |]. split; [exact Hseq | reflexivity].
Qed.

(** X12. Rowids are never recycled, even at the end: once the
    [AUTOINCREMENT] counter of a well-formed table has reached the largest
    64-bit integer, no create in any later session succeeds, whatever is
    deleted in between, and the counter stays where it is. *)
Theorem exhausted_stays_exhausted (reqs : list Request) (t : Table) :
  wf_table t = true -> seq t = INT64_MAX ->
  count_created (fst (serve reqs (Some t))) = 0
  /\ high_water (snd (serve reqs (Some t))) = INT64_MAX.
Proof.
  revert t. induction reqs as [| req reqs IH]; intros t Hwf Hseq.
  - split; [reflexivity | exact Hseq].
  - rewrite serve_cons. cbn [fst snd]. rewrite count_created_cons.
    destruct (app_exhausted req t Hwf Hseq) as (t' & Hdb & Hseq' & Hcr).
    pose proof (app_wf req (Some t) Hwf) as Hwf'. rewrite Hdb in *.
    rewrite Hcr. destruct (IH t' Hwf' Hseq') as [Hcount Hhw].
    rewrite Hcount. split; [reflexivity | exact Hhw].
Qed.

Lemma exhausted_stays_exhausted_witness :
  (wf_table (mkTable [mkRow 7 "last" "" 1] INT64_MAX) = true
   /\ seq (mkTable [mkRow 7 "last" "" 1] INT64_MAX) = INT64_MAX)
  /\ count_created
       (fst (serve (DELETE_task 7 :: session)
                   (Some (mkTable [mkRow 7 "last" "" 1] INT64_MAX)))) = 0
  /\ high_water
       (snd (serve (DELETE_task 7 :: session)
                   (Some (mkTable [mkRow 7 "last" "" 1] INT64_MAX))))
     = INT64_MAX.
Proof.
  split; [split; reflexivity |].
  apply (exhausted_stays_exhausted (DELETE_task 7 :: session)
           (mkTable [mkRow 7 "last" "" 1] INT64_MAX)); reflexivity.
Defined.

(** ** Consecutive ids *)

Lemma app_created_next (req : Request) (db : Database) :
  wf db = true ->
  match created_id (req, fst (app req db)) with
  | Some i =>
      i = high_water db + 1
      /\ high_water (snd (app req db)) = i
      /\ is_created (req, fst (app req db)) = true
  | None =>
      high_water (snd (app req db)) = high_water db
      /\ is_created (req, fst (app req db)) = false
  end.
Proof.
  intros Hwf. destruct db as [t |]; [| destruct req; cbn; auto].
  simpl in Hwf. destruct req as [| c | | j | j u | j].
  - cbn. auto.
  - rewrite (app_POST_wf _ _ Hwf). destruct (seq t <? INT64_MAX); cbn; auto.
  - rewrite app_GET_tasks_db. cbn. auto.
  - rewrite app_GET_task_db. cbn. auto.
  - rewrite app_PUT_some. destruct (in_int64 j); [| cbn; auto].
    destruct (find_row j t); cbn; auto.
  - rewrite app_DELETE_some. destruct (in_int64 j); [| cbn; auto].
    destruct (existsb _ (rows t)); cbn; auto.
Qed.

(** X13. The ids of a session are consecutive: against a well-formed
    database, the k-th successful create of a session returns the
    [AUTOINCREMENT] counter the session began with plus k, whatever other
    requests come in between; and exactly the creates answered 200 return an
    id. *)
Theorem created_ids_consecutive (reqs : list Request) (db : Database) :
  wf db = true ->
  created_ids (fst (serve reqs db))
  = map (fun k => high_water db + Z.of_nat k)
        (List.seq 1 (List.length (created_ids (fst (serve reqs db)))))
  /\ Z.of_nat (List.length (created_ids (fst (serve reqs db))))
     = count_created (fst (serve reqs db)).
Proof.
  revert db. induction reqs as [| req reqs IH]; intros db Hwf.
  - split; reflexivity.
  - rewrite serve_cons. cbn [fst created_ids]. rewrite count_created_cons.
    destruct (IH _ (app_wf req db Hwf)) as [Hids Hlen].
    pose proof (app_created_next req db Hwf) as Hnext.
    destruct (created_id (req, fst (app req db))) as [i |].
    + destruct Hnext as (Hi & Hhw & Hcr). rewrite Hcr.
      cbn [List.length]. remember (List.length (created_ids _)) as m eqn:Hm.
      clear Hm. split.
      * cbn [List.seq map]. f_equal; [cbn; lia |].
        rewrite <- (seq_shift m 1), map_map, Hids.
        apply map_ext. intros k. rewrite Hhw. lia.
      * cbn [Z.b2z]. lia.
    + destruct Hnext as (Hhw & Hcr). rewrite Hcr. split.
      * rewrite Hhw in Hids. exact Hids.
      * cbn [Z.b2z]. lia.
Qed.

Lemma created_ids_consecutive_witness :
  wf (Some seeded) = true
  /\ created_ids (fst (serve session (Some seeded)))
     = map (fun k => high_water (Some seeded) + Z.of_nat k)
           (List.seq 1
              (List.length (created_ids (fst (serve session (Some seeded))))))
  /\ Z.of_nat (List.length (created_ids (fst (serve session (Some seeded)))))
     = count_created (fst (serve session (Some seeded))).
Proof.
  split; [reflexivity |].
  apply (created_ids_consecutive session (Some seeded)). reflexivity.
Defined.

(** * The session against the specification's reading (C8) *)

Lemma holds_of_table (i : Z) (t : Table) :
  Spec.holds i (Spec.of_table t) = stored i (Some t).
Proof.
  unfold Spec.holds, Spec.of_table. cbn [Spec.tasks stored].
  induction (rows t) as [| r rs IH]; [reflexivity |].
  cbn [map existsb Core.task_of_row id]. rewrite IH. reflexivity.
Qed.

(** An id beyond 64 bits is the id of no row. *)
Lemma wf_out_of_range (i : Z) (t : Table) :
  wf_table t = true -> in_int64 i = false -> stored i (Some t) = false.
Proof.
  intros Hwf Hin. destruct (stored i (Some t)) eqn:Hst; [| reflexivity].
  rewrite (wf_stored_in_int64 _ _ Hwf Hst) in Hin. discriminate.
Qed.

Lemma not_stored_rows (i : Z) (t : Table) (r : Row) :
  stored i (Some t) = false -> In r (rows t) -> (row_id r =? i) = false.
Proof.
  intros Hst Hin. apply not_stored_find in Hst.
  apply (find_none _ _ Hst _ Hin).
Qed.

Lemma spec_update_absent (i : Z) (u : TaskUpdate) (t : Table) :
  stored i (Some t) = false ->
  Spec.update i u (Spec.of_table t) = Spec.of_table t.
Proof.
  intros Hst. unfold Spec.update, Spec.of_table. cbn [Spec.tasks Spec.last_id].
  f_equal. rewrite map_map. apply map_ext_in. intros r Hr.
  unfold Spec.overwrite. cbn [Core.task_of_row id].
  rewrite (not_stored_rows _ _ _ Hst Hr). reflexivity.
Qed.

Lemma spec_delete_absent (i : Z) (t : Table) :
  stored i (Some t) = false ->
  Spec.delete i (Spec.of_table t) = Spec.of_table t.
Proof.
  intros Hst. unfold Spec.delete, Spec.of_table. cbn [Spec.tasks Spec.last_id].
  f_equal. rewrite <- filter_task_of_row. f_equal.
  apply not_stored_find in Hst. apply (filter_none _ _ Hst).
Qed.

(** The UPDATE of a stored row is the overwrite of its Task. *)
Lemma spec_update_stored (i : Z) (u : TaskUpdate) (t : Table) (r0 : Row) :
  wf_table t = true -> find_row i t = Some r0 ->
  Spec.of_table
    (mkTable
       (map (set_row i (merge (update_name u) (row_name r0))
                       (merge (update_desc u) (row_desc r0))
                       (Z.b2z (merge (update_status u)
                                     (Core.py_bool (row_status r0)))))
            (rows t))
       (seq t))
  = Spec.update i u (Spec.of_table t).
Proof.
  intros Hwf Hfind. apply wf_table_spec in Hwf as [_ Hok].
  unfold Spec.update, Spec.of_table. cbn [Spec.tasks Spec.last_id rows seq].
  f_equal. rewrite !map_map. apply map_ext_in. intros r Hr.
  unfold set_row, Spec.overwrite. cbn [Core.task_of_row id].
  destruct (row_id r =? i) eqn:E; [| reflexivity].
  apply Z.eqb_eq in E.
  rewrite (rows_ok_unique _ _ _ _ _ _ Hok Hfind Hr E).
  unfold Core.task_of_row. cbn [row_id row_name row_desc row_status name desc status].
  rewrite py_bool_b2z. reflexivity.
Qed.

Lemma spec_creates_cons (req : Request) (reqs : list Request) :
  Spec.creates (req :: reqs) = Spec.creates [req] + Spec.creates reqs.
Proof. destruct req; cbn [Spec.creates]; lia. Qed.

Lemma spec_deletes_cons (req : Request) (reqs : list Request) (st : Spec.State) :
  Spec.deletes (req :: reqs) st
  = Spec.deletes [req] st + Spec.deletes reqs (Spec.step req st).
Proof. cbn [Spec.deletes]. lia. Qed.

Lemma spec_creates_nonneg (reqs : list Request) : 0 <= Spec.creates reqs.
Proof. induction reqs as [| [] reqs IH]; cbn [Spec.creates]; lia. Qed.

(** One request does to the table what the specification's reading says it
    does to the Tasks, and is answered 200 exactly when that reading counts
    it. *)
Lemma app_refines (req : Request) (t : Table) :
  wf_table t = true -> seq t + Spec.creates [req] <= INT64_MAX ->
  exists t' : Table,
    snd (app req (Some t)) = Some t'
    /\ Spec.of_table t' = Spec.step req (Spec.of_table t)
    /\ Z.b2z (is_created (req, fst (app req (Some t)))) = Spec.creates [req]
    /\ Z.b2z (is_deleted (req, fst (app req (Some t))))
       = Spec.deletes [req] (Spec.of_table t)
    /\ Z.of_nat (List.length (rows t'))
       = Z.of_nat (List.length (rows t)) + Spec.creates [req]
         - Spec.deletes [req] (Spec.of_table t).
Proof.
  intros Hwf Hroom. pose proof Hwf as Hwf'.
  apply wf_table_spec in Hwf' as [Hseq Hok].
  destruct req as [| c | | j | j u | j]; cbn [Spec.creates Spec.deletes] in *.
  - exists t. repeat split. lia.
  - rewrite (app_POST_wf _ _ Hwf).
    destruct (seq t <? INT64_MAX) eqn:E; [| apply Z.ltb_ge in E; lia].
    eexists. split; [reflexivity |]. split; [| split; [| split]].
    + unfold Spec.of_table, Spec.step, Spec.create.
      cbn [rows seq Spec.tasks Spec.last_id]. rewrite map_app. cbn [map].
      unfold Core.task_of_row at 2. cbn [row_id row_name row_desc row_status].
      rewrite py_bool_b2z. reflexivity.
    + reflexivity.
    + reflexivity.
    + cbn [rows]. rewrite length_app. cbn [List.length]. lia.
  - exists t. rewrite app_GET_tasks_db. repeat split. lia.
  - exists t. rewrite app_GET_task_db. repeat split. lia.
  - rewrite app_PUT_some. cbn [Spec.step].
    destruct (in_int64 j) eqn:Hin.
    + destruct (find_row j t) as [r0 |] eqn:Hfind.
      * cbv zeta. eexists. split; [reflexivity |].
        split; [apply spec_update_stored; assumption |].
        split; [reflexivity |]. split; [reflexivity |].
        cbn [rows]. rewrite length_map. lia.
      * exists t. split; [reflexivity |].
        split; [symmetry; apply spec_update_absent, not_stored_find; exact Hfind |].
        repeat split. lia.
    + exists t. split; [reflexivity |].
      split; [symmetry; apply spec_update_absent, wf_out_of_range; assumption |].
      repeat split. lia.
  - rewrite app_DELETE_some, holds_of_table. cbn [Spec.step stored].
    destruct (in_int64 j) eqn:Hin.
    + destruct (existsb _ (rows t)) eqn:Hex.
      * eexists. split; [reflexivity |]. split; [| split; [| split]].
        -- unfold Spec.of_table, Spec.delete. cbn [rows seq Spec.tasks Spec.last_id].
           rewrite filter_task_of_row. reflexivity.
        -- reflexivity.
        -- reflexivity.
        -- cbn [rows].
           pose proof (filter_length (fun r => row_id r =? j) (rows t)) as Hlen.
           rewrite (rows_ok_one_match _ _ _ _ Hok Hex) in Hlen. lia.
      * exists t. split; [reflexivity |].
        split; [symmetry; apply spec_delete_absent; exact Hex |].
        repeat split. lia.
    + pose proof (wf_out_of_range _ _ Hwf Hin) as Hst. cbn [stored] in Hst.
      rewrite Hst. exists t. split; [reflexivity |].
      split; [symmetry; apply spec_delete_absent; exact Hst |].
      repeat split. lia.
Qed.

(** A session does to the table what the specification's reading says it
    does to the Tasks. *)
Lemma serve_refines (reqs : list Request) (t : Table) :
  wf_table t = true -> seq t + Spec.creates reqs <= INT64_MAX ->
  exists t' : Table,
    snd (serve reqs (Some t)) = Some t'
    /\ Spec.of_table t' = Spec.run reqs (Spec.of_table t)
    /\ count_created (fst (serve reqs (Some t))) = Spec.creates reqs
    /\ count_deleted (fst (serve reqs (Some t)))
       = Spec.deletes reqs (Spec.of_table t)
    /\ Z.of_nat (List.length (rows t'))
       = Z.of_nat (List.length (rows t)) + Spec.creates reqs
         - Spec.deletes reqs (Spec.of_table t).
Proof.
  revert t. induction reqs as [| req reqs IH]; intros t Hwf Hroom.
  - exists t. repeat split. cbn. lia.
  - rewrite spec_creates_cons in Hroom.
    pose proof (spec_creates_nonneg reqs) as Hn.
    pose proof (spec_creates_nonneg [req]) as Hn1.
    destruct (app_refines req t Hwf) as (t1 & Hdb & Hst & Hcr & Hdel & Hlen);
      [lia |].
    pose proof (app_wf req (Some t) Hwf) as Hwf1. rewrite Hdb in Hwf1.
    assert (Hseq1 : seq t1 = seq t + Spec.creates [req]).
    { change (seq t1) with (Spec.last_id (Spec.of_table t1)). rewrite Hst.
      destruct req; cbn; lia. }
    destruct (IH t1 Hwf1) as (t' & Hdb' & Hst' & Hcr' & Hdel' & Hlen'); [lia |].
    rewrite serve_cons, Hdb. cbn [fst snd].
    exists t'. split; [exact Hdb' |]. split; [| split; [| split]].
    + cbn [Spec.run]. rewrite <- Hst. exact Hst'.
    + rewrite count_created_cons, spec_creates_cons, Hcr, Hcr'. reflexivity.
    + rewrite count_deleted_cons, spec_deletes_cons, Hdel, Hdel', Hst.
      reflexivity.
    + rewrite spec_creates_cons, spec_deletes_cons, <- Hst. lia.
Qed.

(** C8, as the code has it.  On a well-formed table that holds k Tasks and
    has rowids left for the N creates of a session, after the session, in
    which M deletes target a Task that exists when they arrive, the list
    [get_all_tasks] returns has k + N - M Tasks (N - M when the table was
    empty), no two with the same id, and holds exactly the Tasks of the
    specification's reading: for every id, the state last written for it by
    a create or an update of the session, or its stored state when the
    session never wrote it, unless a delete came after.  N and M are also
    the numbers of creates and of deletes that are answered 200. *)
Theorem list_is_last_written (reqs : list Request) (t : Table) :
  wf_table t = true -> seq t + Spec.creates reqs <= INT64_MAX ->
  exists l : list Task,
    Core.get_all_tasks (snd (serve reqs (Some t)))
    = (Return l, snd (serve reqs (Some t)))
    /\ Z.of_nat (List.length l)
       = Z.of_nat (List.length (rows t)) + Spec.creates reqs
         - Spec.deletes reqs (Spec.of_table t)
    /\ (rows t = [] ->
        Z.of_nat (List.length l)
        = Spec.creates reqs - Spec.deletes reqs (Spec.of_table t))
    /\ (forall task : Task,
          In task l
          <-> In task (Spec.tasks (Spec.run reqs (Spec.of_table t))))
    /\ NoDup (map id l)
    /\ count_created (fst (serve reqs (Some t))) = Spec.creates reqs
    /\ count_deleted (fst (serve reqs (Some t)))
       = Spec.deletes reqs (Spec.of_table t).
Proof.
  intros Hwf Hroom.
  destruct (serve_refines reqs t Hwf Hroom)
    as (t' & Hdb & Hst & Hcr & Hdel & Hlen).
  pose proof (serve_wf reqs (Some t) Hwf) as Hwf'. rewrite Hdb in Hwf'.
  cbn [wf] in Hwf'.
  rewrite Hdb, get_all_tasks_eq. eexists. split; [reflexivity |].
  rewrite length_map. split; [exact Hlen |].
  split; [intros Hempty; rewrite Hlen, Hempty; cbn; lia |].
  split; [rewrite <- Hst; reflexivity |].
  split; [| split; assumption].
  rewrite map_id_task_of_row. apply wf_table_spec in Hwf' as [_ Hok].
  apply sorted_lt_NoDup. apply (rows_ok_sorted _ _ _ Hok).
Qed.

Example session_on_seeds :
  Core.get_all_tasks (snd (serve session (Some seeded)))
  = (Return [ mkTask 1 "TASK-1" "First task to complete" false;
              mkTask 3 "TASK-3" "Third task to complete" false;
              mkTask 5 "b2" "second" true;
              mkTask 6 "c" "third" false ],
     snd (serve session (Some seeded)))
  /\ Spec.creates session = 3
  /\ Spec.deletes session (Spec.of_table seeded) = 2.
Proof. repeat split. Qed.

Lemma list_is_last_written_witness :
  (wf_table seeded = true /\ seq seeded + Spec.creates session <= INT64_MAX)
  /\ exists l : list Task,
       Core.get_all_tasks (snd (serve session (Some seeded)))
       = (Return l, snd (serve session (Some seeded)))
       /\ Z.of_nat (List.length l)
          = Z.of_nat (List.length (rows seeded)) + Spec.creates session
            - Spec.deletes session (Spec.of_table seeded)
       /\ (rows seeded = [] ->
           Z.of_nat (List.length l)
           = Spec.creates session - Spec.deletes session (Spec.of_table seeded))
       /\ (forall task : Task,
             In task l
             <-> In task (Spec.tasks (Spec.run session (Spec.of_table seeded))))
       /\ NoDup (map id l)
       /\ count_created (fst (serve session (Some seeded))) = Spec.creates session
       /\ count_deleted (fst (serve session (Some seeded)))
          = Spec.deletes session (Spec.of_table seeded).
Proof.
  split; [split; [reflexivity | vm_compute; discriminate] |].
  apply (list_is_last_written session seeded);
    [reflexivity | vm_compute; discriminate].
Defined.

(** C8 as stated fails on the table startup leaves: with the three seed
    tasks in it, after one create (N = 1) and no delete (M = 0) the list has
    four Tasks, not N - M = 1. *)
Lemma seeds_are_listed :
  let db := snd (startup None) in
  let reqs := [POST_tasks (mkTaskCreate "a" "first" false)] in
  fst (Core.get_all_tasks (snd (serve reqs db)))
  = Return [ mkTask 1 "TASK-1" "First task to complete" false;
             mkTask 2 "TASK-2" "Second task to complete" false;
             mkTask 3 "TASK-3" "Third task to complete" false;
             mkTask 4 "a" "first" false ]
  /\ count_created (fst (serve reqs db)) = 1
  /\ count_deleted (fst (serve reqs db)) = 0
  /\ Spec.creates reqs = 1
  /\ Spec.deletes reqs (Spec.of_table seeded) = 0
  /\ 4 <> 1 - 0.
Proof.
  cbv zeta. repeat split. discriminate.
Qed.

(** * Arguments that are any [str] (C1) *)

(** A code point that is no surrogate has UTF-8 bytes, and only those
    have. *)
Lemma encode_char_some (c : Z) :
  (exists u, Python.encode_char c = Some u)
  <-> 0 <= c < 0x110000 /\ Python.is_surrogate c = false.
Proof.
  unfold Python.encode_char, Python.is_surrogate.
  destruct (c <? 0) eqn:E0; [apply Z.ltb_lt in E0 | apply Z.ltb_ge in E0].
  { split; [intros [u Hu]; discriminate | lia]. }
  destruct (c <? 0x80) eqn:E1; [apply Z.ltb_lt in E1 | apply Z.ltb_ge in E1].
  { split; [intros _ | eauto]. split; [lia |].
    apply andb_false_iff. left. apply Z.leb_gt. lia. }
  destruct (c <? 0x800) eqn:E2; [apply Z.ltb_lt in E2 | apply Z.ltb_ge in E2].
  { split; [intros _ | eauto]. split; [lia |].
    apply andb_false_iff. left. apply Z.leb_gt. lia. }
  destruct ((0xD800 <=? c) && (c <=? 0xDFFF)) eqn:Es.
  { split; [intros [u Hu]; discriminate | intros [_ H]; discriminate]. }
  destruct (c <? 0x10000) eqn:E3; [apply Z.ltb_lt in E3 | apply Z.ltb_ge in E3].
  { split; [intros _ | eauto]. split; [lia | reflexivity]. }
  destruct (c <? 0x110000) eqn:E4; [apply Z.ltb_lt in E4 | apply Z.ltb_ge in E4].
  { split; [intros _ | eauto]. split; [lia | reflexivity]. }
  split; [intros [u Hu]; discriminate | lia].
Qed.

(** A [str] can be encoded exactly when it holds no lone surrogate. *)
Lemma encode_some (s : Python.str) :
  (exists u, Python.encode s = Some u)
  <-> Forall (fun c => 0 <= c < 0x110000 /\ Python.is_surrogate c = false) s.
Proof.
  induction s as [| c s IH]; cbn [Python.encode].
  - split; [constructor | eauto].
  - pose proof (encode_char_some c) as Hc. split.
    + intros [u Hu].
      destruct (Python.encode_char c) as [uc |]; [| discriminate].
      destruct (Python.encode s) as [us |]; [| discriminate].
      constructor; [apply Hc; eauto | apply IH; eauto].
    + intros H. inversion H as [| c' s' Hc' Hs']; subst.
      apply Hc in Hc' as [uc ->]. apply IH in Hs' as [us ->]. eauto.
Qed.


Lemma create_task_str_unencodable (name desc : Python.str) (s : bool)
  (t : Table) :
  Python.encode name = None \/ Python.encode desc = None ->
  Core.create_task_str name desc s (Some t) = (Raise cannot_encode, Some t).
Proof.
  intros H. unfold Core.create_task_str, bind, bind_text.
  destruct (Python.encode name); [| reflexivity].
  destruct H as [H | H]; [discriminate | rewrite H; reflexivity].
Qed.


(** The bytes of some code points, as Python's [encode('utf-8')] gives
    them: one to four bytes each, at both ends of every range. *)
Example encode_bytes :
  option_map (fun u => map (fun a => Z.of_N (N_of_ascii a))
                           (list_ascii_of_string u))
    (Python.encode [0x61; 0x7F; 0x80; 0xE9; 0x7FF; 0x800; 0x20AC; 0xD7FF;
                    0xE000; 0xFFFF; 0x10000; 0x1F600; 0x10FFFF])
  = Some [97; 127; 194; 128; 195; 169; 223; 191; 224; 160; 128;
          226; 130; 172; 237; 159; 191; 238; 128; 128; 239; 191; 191;
          240; 144; 128; 128; 240; 159; 152; 128; 244; 143; 191; 191]
  /\ Python.encode [0x61; 0xD800] = None
  /\ Python.encode [0xDFFF; 0x61] = None.
Proof. repeat split. Qed.



Lemma bind_optional_text (s : option Python.str) (u : option string)
  (t : Table) :
  option_map Python.encode s = option_map Some u ->
  Core.bind_optional s (Some t) = (Return u, Some t).
Proof.
  destruct s as [s |], u as [u |]; cbn [option_map]; intros H;
    try discriminate; [| reflexivity].
  injection H as H.
  unfold Core.bind_optional, bind, bind_text. rewrite H. reflexivity.
Qed.

Lemma update_task_str_text (i : Z) (name desc : option Python.str)
  (n d : option string) (s : option bool) (db : Database) :
  option_map Python.encode name = option_map Some n ->
  option_map Python.encode desc = option_map Some d ->
  Core.update_task_str i name desc s db = Core.update_task i n d s db.
Proof.
  intros Hn Hd. destruct db as [t |]; [| reflexivity].
  unfold Core.update_task_str. unfold bind at 1.
  destruct (in_int64 i) eqn:Hin.
  - rewrite (get_task_by_id_eq _ _ Hin).
    destruct (find_row i t) as [r0 |] eqn:Hfind; cbn [option_map].
    + unfold bind. rewrite (bind_optional_text _ _ _ Hn).
      rewrite (bind_optional_text _ _ _ Hd). reflexivity.
    + rewrite (update_task_absent _ _ _ _ _ Hin Hfind). reflexivity.
  - rewrite (get_task_by_id_overflow _ _ Hin).
    unfold Core.update_task. unfold bind at 1.
    rewrite (get_task_by_id_overflow _ _ Hin). reflexivity.
Qed.

(** X14. A [str] that holds a lone surrogate is refused when the driver
    binds it, before anything is written: with such a [name], on an existing
    table, [create_task] raises [UnicodeEncodeError] and leaves the database
    as it was, and so does [update_task] of a stored id; [update_task] of an
    absent id still returns [None], since it binds nothing. *)
Theorem unencodable_name_writes_nothing (name desc : Python.str) (s : bool)
  (i : Z) (u_desc : option Python.str) (u_status : option bool) (t : Table) :
  Python.encode name = None -> in_int64 i = true ->
  Core.create_task_str name desc s (Some t) = (Raise cannot_encode, Some t)
  /\ Core.update_task_str i (Some name) u_desc u_status (Some t)
     = if stored i (Some t)
       then (Raise cannot_encode, Some t)
       else (Return None, Some t).
Proof.
  intros Hname Hin.
  split; [apply create_task_str_unencodable; left; exact Hname |].
  unfold Core.update_task_str. unfold bind at 1.
  rewrite (get_task_by_id_eq _ _ Hin), (stored_lookup i t).
  destruct (find_row i t) as [r0 |]; cbn [option_map]; [| reflexivity].
  unfold bind, Core.bind_optional, bind, bind_text. rewrite Hname. reflexivity.
Qed.

Lemma unencodable_name_writes_nothing_witness :
  (Python.encode [97; 0xDC00] = None /\ in_int64 2 = true)
  /\ Core.create_task_str [97; 0xDC00] [100] true (Some seeded)
     = (Raise cannot_encode, Some seeded)
  /\ Core.update_task_str 2 (Some [97; 0xDC00]) None (Some true) (Some seeded)
     = if stored 2 (Some seeded)
       then (Raise cannot_encode, Some seeded)
       else (Return None, Some seeded).
Proof.
  split; [split; reflexivity |].
  apply (unencodable_name_writes_nothing [97; 0xDC00] [100] true 2 None
           (Some true) seeded); reflexivity.
Defined.

(** * The two [init_db] side by side (C2) *)

(** C2. On a database file without the table, the [init_db] of
    [backend/db.py] leaves exactly the three seed tasks TASK-1, TASK-2,
    TASK-3, all with status false, and run again on that table it adds
    nothing; the [init_db] of the top-level [db.py], run on the same file,
    leaves an empty table: it has the CREATE TABLE of its sibling and none
    of the seeding. *)
Theorem root_init_db_misses_seeding :
  (BackendDb.init_db None = (Return tt, Some seeded)
   /\ Core.get_all_tasks (Some seeded) = (Return (seed_tasks 0), Some seeded)
   /\ BackendDb.init_db (Some seeded) = (Return tt, Some seeded))
  /\ Db.init_db None = (Return tt, Some (mkTable [] 0))
  /\ Core.get_all_tasks (Some (mkTable [] 0))
     = (Return [], Some (mkTable [] 0))
  /\ Db.init_db (Some (mkTable [] 0)) = (Return tt, Some (mkTable [] 0))
  /\ @nil Task <> seed_tasks 0.
Proof.
  repeat split. discriminate.
Qed.
